(** * pokemon-api: the creation workflow of [internal/core/services]

    A shallow embedding of the service layer of the Pokemon API
    ([pokemonService.CreatePokemon], [CreatePokemonFlexible] and
    [extractPokemonName]) together with the domain types it works on and
    the two ports it talks to (the repository and the PokeAPI client).

    The service is written against two Go interfaces.  Their calls are the
    observable effects of the service, so the embedding keeps them as
    explicit actions of a small free monad ([Prog]); an interpreter
    ([run]) executes a program against any implementation of the ports and
    records the calls in the order they were made. *)

From Stdlib Require Import ZArith NArith Ascii String List Bool.
From Stdlib Require Import Decimal DecimalString DecimalN.
From stdpp Require Import base option strings gmap list.

Local Open Scope string_scope.

(** ** Go's [error] values

    The service builds errors with [errors.New] and wraps the errors of
    its collaborators with [fmt.Errorf("...: %w", err)].  An error is
    observed through its message ([err.Error()]); a wrapped error keeps
    its cause. *)

Inductive error : Type :=
| errors_New (text : string)
| fmt_Errorf_w (prefix : string) (cause : error).

(** [err.Error()]: the message of a wrapping error is the text of the
    format string before [%w] followed by the message of the cause. *)
Fixpoint Error (e : error) : string :=
  match e with
  | errors_New text => text
  | fmt_Errorf_w prefix cause => prefix +:+ Error cause
  end.

(** [errors.Unwrap]. *)
Definition Unwrap (e : error) : option error :=
  match e with
  | errors_New _ => None
  | fmt_Errorf_w _ cause => Some cause
  end.

(** ** The [strings] functions the service uses

    A Go string is a sequence of bytes, as a Rocq [string] is.  The two
    library functions are given on the ASCII range, which is complete for
    strings whose bytes are all below 0x80; a byte from 0x80 on is kept as
    it is (the Go library consults its Unicode tables there). *)

Module strings.

(** The [asciiSpace] table: tab, line feed, vertical tab, form feed,
    carriage return and space. *)
Definition isSpace (c : ascii) : bool :=
  let n := N_of_ascii c in
  ((9 <=? n) && (n <=? 13) || (n =? 32))%N.

Fixpoint TrimLeft (s : string) : string :=
  match s with
  | String c rest => if isSpace c then TrimLeft rest else s
  | EmptyString => EmptyString
  end.

(** Drops the trailing white space: a white-space byte is kept only
    when something that is kept follows it. *)
Fixpoint TrimRight (s : string) : string :=
  match s with
  | String c rest =>
      match TrimRight rest with
      | EmptyString => if isSpace c then EmptyString else String c EmptyString
      | kept => String c kept
      end
  | EmptyString => EmptyString
  end.

Definition TrimSpace (s : string) : string := TrimRight (TrimLeft s).

Definition toLowerByte (c : ascii) : ascii :=
  let n := N_of_ascii c in
  if ((65 <=? n) && (n <=? 90))%N then ascii_of_N (n + 32) else c.

Fixpoint ToLower (s : string) : string :=
  match s with
  | String c rest => String (toLowerByte c) (ToLower rest)
  | EmptyString => EmptyString
  end.

End strings.

(** ** [internal/core/domain] *)

(** [time.Time], as nanoseconds since the epoch; [0] stands for the zero
    value a freshly built record carries. *)
Definition Time : Type := Z.

Module Pokemon.
Record t : Type := mk {
  ID : N;
  Name : string;
  Type1 : string;
  Type2 : string;
  Height : Z;
  Weight : Z;
  BaseExp : Z;
  CreatedAt : Time;
  UpdatedAt : Time
}.
End Pokemon.

Module CreatePokemonRequest.
Record t : Type := mk {
  Name : string;
  Type1 : string;
  Type2 : string
}.
End CreatePokemonRequest.

(** A value of type [interface{}] as [encoding/json] produces it: [nil],
    [bool], [float64] (its 64 bits), [string], [[]interface{}] or
    [map[string]interface{}]. *)
#[warnings="-register-all"] Inductive any : Type :=
| any_nil
| any_bool (b : bool)
| any_float64 (bits : Z)
| any_string (s : string)
| any_slice (elems : list any)
| any_map (fields : gmap string any).

(** The type assertion [v.(string)], with its [ok] flag as [Some]. *)
Definition assert_string (v : any) : option string :=
  match v with
  | any_string s => Some s
  | _ => None
  end.

Module FlexiblePokemonRequest.
(** [Pokemon] is a Go map, which may be [nil] ([None]). *)
Record t : Type := mk {
  Name : string;
  Type1 : string;
  Type2 : string;
  Pokemon : option (gmap string any)
}.
End FlexiblePokemonRequest.

Module ExternalPokemonResponse.
(** One element of [Types]: [struct { Type struct { Name string } }]. *)
Record TypeSlot : Type := mkSlot { TypeName : string }.

Record t : Type := mk {
  ID : Z;
  Name : string;
  Height : Z;
  Weight : Z;
  BaseExperience : Z;
  Types : list TypeSlot
}.
End ExternalPokemonResponse.

(** ** [internal/core/ports]

    A call to a port, indexed by what the call gives back.  A Go pointer
    result is an [option] ([None] is [nil]), an [error] result likewise.
    [Create] receives a pointer to the record: what it gives back is the
    record as the repository left it behind that pointer, and the error. *)

Module ports.

Inductive Call : Type -> Type :=
| GetByName (name : string) : Call (option Pokemon.t * option error)
| GetPokemonData (identifier : string)
    : Call (option ExternalPokemonResponse.t * option error)
| Create (pokemon : Pokemon.t) : Call (Pokemon.t * option error).

(** An implementation of [PokemonRepository] and [PokemonAPIClient] over
    a state [W] of its own (the database, the remote service); every call
    comes back with an answer. *)
Record Collaborators (W : Type) : Type := mkCollaborators {
  repository_GetByName : string -> W -> (option Pokemon.t * option error) * W;
  apiClient_GetPokemonData :
    string -> W -> (option ExternalPokemonResponse.t * option error) * W;
  repository_Create : Pokemon.t -> W -> (Pokemon.t * option error) * W
}.
Arguments mkCollaborators {W}.
Arguments repository_GetByName {W}.
Arguments apiClient_GetPokemonData {W}.
Arguments repository_Create {W}.

Definition handle {W X : Type} (c : Collaborators W) (call : Call X)
  : W -> X * W :=
  match call in Call X0 return W -> X0 * W with
  | GetByName name => repository_GetByName c name
  | GetPokemonData identifier => apiClient_GetPokemonData c identifier
  | Create pokemon => repository_Create c pokemon
  end.

End ports.

(** ** Programs over the ports *)

(** What a call looks like from outside: the method and its argument. *)
Inductive Event : Type :=
| EvGetByName (name : string)
| EvGetPokemonData (identifier : string)
| EvCreate (pokemon : Pokemon.t).

Definition event_of {X : Type} (call : ports.Call X) : Event :=
  match call with
  | ports.GetByName name => EvGetByName name
  | ports.GetPokemonData identifier => EvGetPokemonData identifier
  | ports.Create pokemon => EvCreate pokemon
  end.

Definition isGetPokemonData (e : Event) : bool :=
  match e with EvGetPokemonData _ => true | _ => false end.
Definition isCreate (e : Event) : bool :=
  match e with EvCreate _ => true | _ => false end.

(** The calls of one kind in a trace. *)
Definition calls (kind : Event -> bool) (trace : list Event) : list Event :=
  List.filter kind trace.

Inductive Prog (A : Type) : Type :=
| Ret (a : A)
| Panic (reason : string)
| Do (X : Type) (call : ports.Call X) (k : X -> Prog A).
Arguments Ret {A}.
Arguments Panic {A}.
Arguments Do {A X}.

Fixpoint bind {A B : Type} (m : Prog A) (f : A -> Prog B) : Prog B :=
  match m with
  | Ret a => f a
  | Panic reason => Panic reason
  | Do call k => Do call (fun x => bind (k x) f)
  end.

Definition call {X : Type} (c : ports.Call X) : Prog X := Do c Ret.

(** [Prog] with stdpp's monad notations: [x ← m; k] is [bind m (λ x, k)]. *)
#[export] Instance Prog_ret : MRet Prog := @Ret.
#[export] Instance Prog_bind : MBind Prog := fun A B f m => bind m f.

(** How a run ends: the function returns, or the goroutine panics. *)
Inductive Outcome (A : Type) : Type :=
| Returned (a : A)
| Panicked (reason : string).
Arguments Returned {A}.
Arguments Panicked {A}.

Record Run (A W : Type) : Type := mkRun {
  outcome : Outcome A;
  trace : list Event;
  world : W
}.
Arguments mkRun {A W}.
Arguments outcome {A W}.
Arguments trace {A W}.
Arguments world {A W}.

(** Runs a program against the collaborators [c] from the state [w]; the
    trace lists the calls in the order they were made. *)
Fixpoint run {A W : Type} (c : ports.Collaborators W) (m : Prog A) (w : W)
  : Run A W :=
  match m with
  | Ret a => mkRun (Returned a) [] w
  | Panic reason => mkRun (Panicked reason) [] w
  | Do call k =>
      let '(x, w1) := ports.handle c call w in
      let r := run c (k x) w1 in
      mkRun (outcome r) (event_of call :: trace r) (world r)
  end.

(** ** [internal/core/services] *)

Definition is_nil {A : Type} (p : option A) : bool :=
  match p with None => true | Some _ => false end.

(** [m[key]] on a [map[string]interface{}]: a missing key reads as the
    [nil] interface value. *)
Definition index (m : gmap string any) (key : string) : any :=
  default any_nil (m !! key).

Module services.

Import ports.

(** [func (s *pokemonService) CreatePokemon(req)], for a request pointer
    that is not [nil].  [externalData.Name] dereferences the client's
    pointer: a client that answers [(nil, nil)] makes the service panic. *)
Definition CreatePokemon (req : CreatePokemonRequest.t)
  : Prog (option Pokemon.t * option error) :=
  '(existingPokemon, err) ← call (GetByName (CreatePokemonRequest.Name req));
  if is_nil err && negb (is_nil existingPokemon) then
    Ret (None, Some (errors_New "pokemon with this name already exists"))
  else
    '(externalData, err) ← call (GetPokemonData (CreatePokemonRequest.Name req));
    match err with
    | Some err => Ret (None, Some (fmt_Errorf_w "failed to fetch Pokemon data: " err))
    | None =>
        match externalData with
        | None => Panic "invalid memory address or nil pointer dereference"
        | Some externalData =>
            let pokemon :=
              {| Pokemon.ID := 0%N;
                 Pokemon.Name := ExternalPokemonResponse.Name externalData;
                 Pokemon.Type1 := CreatePokemonRequest.Type1 req;
                 Pokemon.Type2 := CreatePokemonRequest.Type2 req;
                 Pokemon.Height := ExternalPokemonResponse.Height externalData;
                 Pokemon.Weight := ExternalPokemonResponse.Weight externalData;
                 Pokemon.BaseExp :=
                   ExternalPokemonResponse.BaseExperience externalData;
                 Pokemon.CreatedAt := 0%Z;
                 Pokemon.UpdatedAt := 0%Z |} in
            '(pokemon, err) ← call (Create pokemon);
            match err with
            | Some err => Ret (None, Some (fmt_Errorf_w "failed to save Pokemon: " err))
            | None => Ret (Some pokemon, None)
            end
        end
    end.

(** [func (s *pokemonService) extractPokemonName(input) string]. *)
Definition extractPokemonName (input : FlexiblePokemonRequest.t) : string :=
  if negb (String.eqb (FlexiblePokemonRequest.Name input) "") then
    strings.ToLower (strings.TrimSpace (FlexiblePokemonRequest.Name input))
  else
    match FlexiblePokemonRequest.Pokemon input with
    | Some fields =>
        match
          match fields !! "name" with
          | Some nameValue => assert_string nameValue
          | None => None
          end
        with
        | Some nameStr => strings.ToLower (strings.TrimSpace nameStr)
        | None =>
            match assert_string (index fields "pokemon") with
            | Some nameStr => strings.ToLower (strings.TrimSpace nameStr)
            | None => ""
            end
        end
    | None => ""
    end.

(** [func (s *pokemonService) CreatePokemonFlexible(req)]. *)
Definition CreatePokemonFlexible (req : FlexiblePokemonRequest.t)
  : Prog (option Pokemon.t * option error) :=
  let pokemonName := extractPokemonName req in
  if String.eqb pokemonName "" then
    Ret (None, Some (errors_New "pokemon name is required"))
  else
    let standardReq :=
      {| CreatePokemonRequest.Name := pokemonName;
         CreatePokemonRequest.Type1 := FlexiblePokemonRequest.Type1 req;
         CreatePokemonRequest.Type2 := FlexiblePokemonRequest.Type2 req |} in
    CreatePokemon standardReq.

End services.

(** ** The adapters over in-memory state

    [internal/adapters/repositories] and [internal/adapters/external] with
    the database table held as a list of rows and the remote catalogue as a
    list of entries; they serve as concrete collaborators. *)

Module adapters.

Record World : Type := mkWorld {
  rows : list Pokemon.t;
  nextID : N;
  now : Time;
  catalogue : list ExternalPokemonResponse.t
}.

Definition hasName (name : string) (p : Pokemon.t) : bool :=
  String.eqb (Pokemon.Name p) name.

(** [PokemonRepository.GetByName]: the first row with that exact name. *)
Definition GetByName (name : string) (w : World)
  : (option Pokemon.t * option error) * World :=
  match List.find (hasName name) (rows w) with
  | Some pokemon => ((Some pokemon, None), w)
  | None => ((None, Some (errors_New "pokemon not found")), w)
  end.

(** [PokemonRepository.Create]: the table has a unique name column; a
    row that is inserted gets its id and its timestamps written back
    into the record. *)
Definition Create (pokemon : Pokemon.t) (w : World)
  : (Pokemon.t * option error) * World :=
  if List.existsb (hasName (Pokemon.Name pokemon)) (rows w) then
    ((pokemon,
      Some (errors_New "duplicate key value violates unique constraint")), w)
  else
    let saved :=
      {| Pokemon.ID := nextID w;
         Pokemon.Name := Pokemon.Name pokemon;
         Pokemon.Type1 := Pokemon.Type1 pokemon;
         Pokemon.Type2 := Pokemon.Type2 pokemon;
         Pokemon.Height := Pokemon.Height pokemon;
         Pokemon.Weight := Pokemon.Weight pokemon;
         Pokemon.BaseExp := Pokemon.BaseExp pokemon;
         Pokemon.CreatedAt := now w;
         Pokemon.UpdatedAt := now w |} in
    ((saved, None),
     {| rows := rows w ++ [saved];
        nextID := N.succ (nextID w);
        now := now w;
        catalogue := catalogue w |}).

(** [pokeAPIClient.GetPokemonData]: the identifier is normalised, then
    looked up; a missing entry is the 404 of the remote service. *)
Definition GetPokemonData (identifier : string) (w : World)
  : (option ExternalPokemonResponse.t * option error) * World :=
  let identifier := strings.ToLower (strings.TrimSpace identifier) in
  match
    List.find (fun e => String.eqb (ExternalPokemonResponse.Name e) identifier)
      (catalogue w)
  with
  | Some pokemonData => ((Some pokemonData, None), w)
  | None =>
      ((None, Some (errors_New ("pokemon '" +:+ identifier +:+ "' not found"))), w)
  end.

Definition collaborators : ports.Collaborators World :=
  ports.mkCollaborators GetByName GetPokemonData Create.

Definition pikachu_entry : ExternalPokemonResponse.t :=
  {| ExternalPokemonResponse.ID := 25;
     ExternalPokemonResponse.Name := "pikachu";
     ExternalPokemonResponse.Height := 4;
     ExternalPokemonResponse.Weight := 60;
     ExternalPokemonResponse.BaseExperience := 112;
     ExternalPokemonResponse.Types :=
       [ExternalPokemonResponse.mkSlot "electric"] |}.

Definition charizard_entry : ExternalPokemonResponse.t :=
  {| ExternalPokemonResponse.ID := 6;
     ExternalPokemonResponse.Name := "charizard";
     ExternalPokemonResponse.Height := 17;
     ExternalPokemonResponse.Weight := 905;
     ExternalPokemonResponse.BaseExperience := 267;
     ExternalPokemonResponse.Types :=
       [ExternalPokemonResponse.mkSlot "fire";
        ExternalPokemonResponse.mkSlot "flying"] |}.

(** An empty table in front of a catalogue of two entries. *)
Definition fresh : World :=
  {| rows := []; nextID := 1; now := 1700000000%Z;
     catalogue := [pikachu_entry; charizard_entry] |}.

Definition pikachu_row : Pokemon.t :=
  {| Pokemon.ID := 1; Pokemon.Name := "pikachu";
     Pokemon.Type1 := "electric"; Pokemon.Type2 := "";
     Pokemon.Height := 4; Pokemon.Weight := 60; Pokemon.BaseExp := 112;
     Pokemon.CreatedAt := 1600000000%Z; Pokemon.UpdatedAt := 1600000000%Z |}.

(** The same with pikachu already stored. *)
Definition with_pikachu : World :=
  {| rows := [pikachu_row]; nextID := 2; now := 1700000000%Z;
     catalogue := [pikachu_entry; charizard_entry] |}.

End adapters.

(** ** Scripted collaborators

    The doubles of the service tests ([MockPokemonRepository],
    [MockPokemonAPIClient]): every method answers what the script says,
    whatever its argument, and [Create] leaves the record it is handed
    untouched. *)

Module mock.

Record Script : Type := mkScript {
  onGetByName : option Pokemon.t * option error;
  onGetPokemonData : option ExternalPokemonResponse.t * option error;
  onCreate : option error
}.

Definition collaborators : ports.Collaborators Script :=
  ports.mkCollaborators
    (fun _ script => (onGetByName script, script))
    (fun _ script => (onGetPokemonData script, script))
    (fun pokemon script => ((pokemon, onCreate script), script)).

End mock.

(** ** Auxiliary notions for the statements *)

(** The fields of a record that the service fills in; the id and the two
    timestamps are the repository's to write. *)
Definition payload (p : Pokemon.t) : string * string * string * Z * Z * Z :=
  (Pokemon.Name p, Pokemon.Type1 p, Pokemon.Type2 p,
   Pokemon.Height p, Pokemon.Weight p, Pokemon.BaseExp p).

(** A client that answers as [c]'s does, with the type tags of the entry
    replaced by [tags]. *)
Definition with_Types (tags : list ExternalPokemonResponse.TypeSlot)
    (e : ExternalPokemonResponse.t) : ExternalPokemonResponse.t :=
  {| ExternalPokemonResponse.ID := ExternalPokemonResponse.ID e;
     ExternalPokemonResponse.Name := ExternalPokemonResponse.Name e;
     ExternalPokemonResponse.Height := ExternalPokemonResponse.Height e;
     ExternalPokemonResponse.Weight := ExternalPokemonResponse.Weight e;
     ExternalPokemonResponse.BaseExperience :=
       ExternalPokemonResponse.BaseExperience e;
     ExternalPokemonResponse.Types := tags |}.

Definition retagged {W : Type} (tags : list ExternalPokemonResponse.TypeSlot)
    (c : ports.Collaborators W) : ports.Collaborators W :=
  ports.mkCollaborators
    (ports.repository_GetByName c)
    (fun identifier w =>
       let '((data, err), w1) := ports.apiClient_GetPokemonData c identifier w in
       ((with_Types tags <$> data, err), w1))
    (ports.repository_Create c).

(** The three places a flexible request can carry a name in, in the order
    of their precedence, each as the service reads it: [None] when the
    place holds nothing to read. *)
Definition topLevelName (input : FlexiblePokemonRequest.t) : option string :=
  if String.eqb (FlexiblePokemonRequest.Name input) "" then None
  else Some (FlexiblePokemonRequest.Name input).

Definition nestedName (input : FlexiblePokemonRequest.t) : option string :=
  fields ← FlexiblePokemonRequest.Pokemon input;
  nameValue ← fields !! "name";
  assert_string nameValue.

Definition nestedPokemon (input : FlexiblePokemonRequest.t) : option string :=
  fields ← FlexiblePokemonRequest.Pokemon input;
  assert_string (index fields "pokemon").

Definition firstPresent (sources : list (option string)) : option string :=
  List.fold_right (fun source later =>
                     match source with Some _ => source | None => later end)
                  None sources.

(** Name resolution as the specification words it: top-level name, then
    nested name, then the nested string field, where a place is passed
    over when it is absent or empty after trimming and lowercasing. *)
Definition normalized (source : option string) : string :=
  match source with
  | Some raw => strings.ToLower (strings.TrimSpace raw)
  | None => ""
  end.

Definition specified_resolution (input : FlexiblePokemonRequest.t) : string :=
  let top := strings.ToLower (strings.TrimSpace (FlexiblePokemonRequest.Name input)) in
  if negb (String.eqb top "") then top
  else
    let nested := normalized (nestedName input) in
    if negb (String.eqb nested "") then nested
    else normalized (nestedPokemon input).

(** A flexible request whose top-level name is three spaces and whose
    nested object names pikachu. *)
Definition blank_top_level : FlexiblePokemonRequest.t :=
  FlexiblePokemonRequest.mk "   " "electric" ""
    (Some {[ "name" := any_string "pikachu" ]}).

(** A string that does not begin with white space. *)
Definition startsClean (s : string) : bool :=
  match s with
  | String c _ => negb (strings.isSpace c)
  | EmptyString => true
  end.

(** The name a call carries, for the two calls that are made by name. *)
Definition name_of (e : Event) : option string :=
  match e with
  | EvGetByName name => Some name
  | EvGetPokemonData identifier => Some identifier
  | EvCreate _ => None
  end.

(** ** [net/http] and [strconv], as far as the adapters use them *)

Module http.
Definition StatusOK : Z := 200.
Definition StatusCreated : Z := 201.
Definition StatusBadRequest : Z := 400.
Definition StatusNotFound : Z := 404.
Definition StatusConflict : Z := 409.
Definition StatusInternalServerError : Z := 500.

(** [*http.Response], as far as the client reads it: the status and the
    content of the body. *)
Record Response : Type := mkResponse { StatusCode : Z; Body : string }.
End http.

(** The verb [%d] of [fmt] on an [int]. *)
Definition Sprintf_d (n : Z) : string := NilZero.string_of_int (Z.to_int n).

Module strconv.

Inductive NumError : Type := ErrSyntax | ErrRange.

Definition isDigit (c : ascii) : bool :=
  let n := N_of_ascii c in ((48 <=? n) && (n <=? 57))%N.

(** The loop of [ParseUint] in base 10 over the bytes of the string: [n]
    is the [uint64] accumulator, [maxVal] the largest value of the bit
    size.  [cutoff] is the smallest number whose tenfold overflows 64
    bits. *)
Definition cutoff : N := ((2 ^ 64 - 1) / 10 + 1)%N.

Fixpoint parseLoop (maxVal : N) (s : string) (n : N) : N * option NumError :=
  match s with
  | EmptyString => (n, None)
  | String c rest =>
      if isDigit c then
        let d := (N_of_ascii c - 48)%N in
        if (cutoff <=? n)%N then (maxVal, Some ErrRange)
        else
          let n10 := ((n * 10) mod 2 ^ 64)%N in
          let n1 := ((n10 + d) mod 2 ^ 64)%N in
          if ((n1 <? n10) || (maxVal <? n1))%N then (maxVal, Some ErrRange)
          else parseLoop maxVal rest n1
      else (0%N, Some ErrSyntax)
  end.

(** [strconv.ParseUint(s, 10, bitSize)] for a bit size from 1 to 64. *)
Definition ParseUint (s : string) (bitSize : N) : N * option NumError :=
  if String.eqb s "" then (0%N, Some ErrSyntax)
  else parseLoop (2 ^ bitSize - 1)%N s 0%N.

End strconv.

(** ** [internal/adapters/external] *)

Module external.

(** What the client stands on: [httpClient.Get] over a state [H] of the
    network (the response is read when the error is [nil]), and
    [json.NewDecoder(body).Decode] into an [ExternalPokemonResponse]. *)
Record Transport (H : Type) : Type := mkTransport {
  Get : string -> H -> (http.Response * option error) * H;
  Decode : string -> ExternalPokemonResponse.t * option error
}.
Arguments mkTransport {H}.
Arguments Get {H}.
Arguments Decode {H}.

Record pokeAPIClient (H : Type) : Type := mkClient {
  baseURL : string;
  httpClient : Transport H
}.
Arguments mkClient {H}.
Arguments baseURL {H}.
Arguments httpClient {H}.

(** [func (c *pokeAPIClient) GetPokemonData(identifier)]. *)
Definition GetPokemonData {H : Type} (c : pokeAPIClient H)
    (identifier : string) (h : H)
  : (option ExternalPokemonResponse.t * option error) * H :=
  let identifier := strings.ToLower (strings.TrimSpace identifier) in
  let url := baseURL c +:+ "/pokemon/" +:+ identifier in
  let '((resp, err), h1) := Get (httpClient c) url h in
  match err with
  | Some err =>
      ((None, Some (fmt_Errorf_w "failed to make request to PokeAPI: " err)), h1)
  | None =>
      if (http.StatusCode resp =? http.StatusNotFound)%Z then
        ((None, Some (errors_New ("pokemon '" +:+ identifier +:+ "' not found"))),
         h1)
      else if negb (http.StatusCode resp =? http.StatusOK)%Z then
        ((None,
          Some (errors_New ("PokeAPI returned status "
                            +:+ Sprintf_d (http.StatusCode resp)))), h1)
      else
        let '(pokemonData, err) := Decode (httpClient c) (http.Body resp) in
        match err with
        | Some err =>
            ((None,
              Some (fmt_Errorf_w "failed to decode PokeAPI response: " err)), h1)
        | None => ((Some pokemonData, None), h1)
        end
  end.

End external.

(** ** [internal/adapters/repositories] *)

Module gorm.
(** What the repository uses of [*gorm.DB], over the state [D] of the
    database.  The queries fill the record they are handed and report an
    error; [Is_ErrRecordNotFound] is
    [errors.Is(err, gorm.ErrRecordNotFound)]. *)
Record DB (D : Type) : Type := mkDB {
  Create : Pokemon.t -> D -> (Pokemon.t * option error) * D;
  First : N -> D -> (Pokemon.t * option error) * D;
  Where_name_First : string -> D -> (Pokemon.t * option error) * D;
  Find : D -> (list Pokemon.t * option error) * D;
  Is_ErrRecordNotFound : error -> bool
}.
Arguments mkDB {D}.
Arguments Create {D}.
Arguments First {D}.
Arguments Where_name_First {D}.
Arguments Find {D}.
Arguments Is_ErrRecordNotFound {D}.
End gorm.

Module repositories.

(** [func (r *PokemonRepository) Create(pokemon) error]. *)
Definition Create {D : Type} (db : gorm.DB D) (pokemon : Pokemon.t) (d : D)
  : (Pokemon.t * option error) * D :=
  gorm.Create db pokemon d.

(** [func (r *PokemonRepository) GetByID(id)]. *)
Definition GetByID {D : Type} (db : gorm.DB D) (id : N) (d : D)
  : (option Pokemon.t * option error) * D :=
  let '((pokemon, err), d1) := gorm.First db id d in
  match err with
  | Some err =>
      if gorm.Is_ErrRecordNotFound db err then
        ((None, Some (errors_New "pokemon not found")), d1)
      else ((None, Some err), d1)
  | None => ((Some pokemon, None), d1)
  end.

(** [func (r *PokemonRepository) GetByName(name)]. *)
Definition GetByName {D : Type} (db : gorm.DB D) (name : string) (d : D)
  : (option Pokemon.t * option error) * D :=
  let '((pokemon, err), d1) := gorm.Where_name_First db name d in
  match err with
  | Some err =>
      if gorm.Is_ErrRecordNotFound db err then
        ((None, Some (errors_New "pokemon not found")), d1)
      else ((None, Some err), d1)
  | None => ((Some pokemon, None), d1)
  end.

(** [func (r *PokemonRepository) List()]; a [nil] slice and an empty one
    are both the empty list. *)
Definition List {D : Type} (db : gorm.DB D) (d : D)
  : (list Pokemon.t * option error) * D :=
  let '((pokemon, err), d1) := gorm.Find db d in
  match err with
  | Some err => (([], Some err), d1)
  | None => ((pokemon, None), d1)
  end.

End repositories.

(** ** The service as [cmd/api] wires it

    [services.NewPokemonService(repo, apiClient)] over the repository on a
    database and the PokeAPI client on a network; the state of the whole
    is the pair of their states. *)
Definition wired {D H : Type} (db : gorm.DB D) (client : external.pokeAPIClient H)
  : ports.Collaborators (D * H) :=
  ports.mkCollaborators
    (fun name '(d, h) =>
       let '(answer, d1) := repositories.GetByName db name d in (answer, (d1, h)))
    (fun identifier '(d, h) =>
       let '(answer, h1) := external.GetPokemonData client identifier h in
       (answer, (d, h1)))
    (fun pokemon '(d, h) =>
       let '(answer, d1) := repositories.Create db pokemon d in (answer, (d1, h))).

(** ** The read side of the service

    [GetPokemon] and [ListPokemon] talk to the repository only; they are
    given in state-passing style over the state of the repository. *)

Definition State (S A : Type) : Type := S -> A * S.

#[export] Instance State_ret {S : Type} : MRet (State S) :=
  fun A a s => (a, s).
#[export] Instance State_bind {S : Type} : MBind (State S) :=
  fun A B f m s => let '(a, s1) := m s in f a s1.

Module pokemonService.

(** [func (s *pokemonService) GetPokemon(id uint)]. *)
Definition GetPokemon {D : Type}
    (repository_GetByID : N -> State D (option Pokemon.t * option error))
    (id : N) : State D (option Pokemon.t * option error) :=
  repository_GetByID id.

(** [func (s *pokemonService) ListPokemon()]. *)
Definition ListPokemon {D : Type}
    (repository_List : State D (list Pokemon.t * option error))
  : State D (list Pokemon.t * option error) :=
  repository_List.

End pokemonService.

(** ** [internal/adapters/handlers]

    A handler ends in one [c.JSON(code, obj)]; that call is its result.
    The service behind a handler is an interface value: the handlers are
    written over any monad the service lives in ([Prog] for the creation
    workflow, [State] for the read side). *)

Module handlers.

Inductive Body : Type :=
| H_error (message : string)
| H_health
| one (pokemon : option Pokemon.t)
| many (pokemon : list Pokemon.t).

Record Response : Type := JSON { code : Z; obj : Body }.

Section Handlers.

Context {M : Type -> Type} `{!MBind M, !MRet M}.

(** [func (h *pokemonHandler) CreatePokemon(c)]; [bound] is the request
    as [c.ShouldBindJSON] filled it, and its error. *)
Definition CreatePokemon
    (service_CreatePokemon :
       CreatePokemonRequest.t -> M (option Pokemon.t * option error))
    (bound : CreatePokemonRequest.t * option error) : M Response :=
  let '(req, err) := bound in
  match err with
  | Some err => mret (JSON http.StatusBadRequest (H_error (Error err)))
  | None =>
      '(pokemon, err) ← service_CreatePokemon req;
      match err with
      | Some err =>
          if String.eqb (Error err) "pokemon with this name already exists" then
            mret (JSON http.StatusConflict (H_error (Error err)))
          else mret (JSON http.StatusInternalServerError (H_error (Error err)))
      | None => mret (JSON http.StatusCreated (one pokemon))
      end
  end.

(** [func (h *pokemonHandler) CreatePokemonFlexible(c)]. *)
Definition CreatePokemonFlexible
    (service_CreatePokemonFlexible :
       FlexiblePokemonRequest.t -> M (option Pokemon.t * option error))
    (bound : FlexiblePokemonRequest.t * option error) : M Response :=
  let '(req, err) := bound in
  match err with
  | Some err => mret (JSON http.StatusBadRequest (H_error (Error err)))
  | None =>
      '(pokemon, err) ← service_CreatePokemonFlexible req;
      match err with
      | Some err =>
          if String.eqb (Error err) "pokemon with this name already exists" then
            mret (JSON http.StatusConflict (H_error (Error err)))
          else mret (JSON http.StatusInternalServerError (H_error (Error err)))
      | None => mret (JSON http.StatusCreated (one pokemon))
      end
  end.

(** [func (h *pokemonHandler) GetPokemon(c)]; [idParam] is
    [c.Param("id")]. *)
Definition GetPokemon
    (service_GetPokemon : N -> M (option Pokemon.t * option error))
    (idParam : string) : M Response :=
  let '(id, err) := strconv.ParseUint idParam 32 in
  match err with
  | Some _ => mret (JSON http.StatusBadRequest (H_error "invalid Pokemon ID"))
  | None =>
      '(pokemon, err) ← service_GetPokemon id;
      match err with
      | Some err =>
          if String.eqb (Error err) "pokemon not found" then
            mret (JSON http.StatusNotFound (H_error (Error err)))
          else mret (JSON http.StatusInternalServerError (H_error (Error err)))
      | None => mret (JSON http.StatusOK (one pokemon))
      end
  end.

(** [func (h *pokemonHandler) ListPokemon(c)]. *)
Definition ListPokemon
    (service_ListPokemon : M (list Pokemon.t * option error)) : M Response :=
  '(pokemon, err) ← service_ListPokemon;
  match err with
  | Some err => mret (JSON http.StatusInternalServerError (H_error (Error err)))
  | None => mret (JSON http.StatusOK (many pokemon))
  end.

(** [func (h *pokemonHandler) HealthCheck(c)]. *)
Definition HealthCheck : M Response := mret (JSON http.StatusOK H_health).

End Handlers.

End handlers.

(** ** [cmd/api] *)

(** [func getEnv(key, defaultValue string) string]; [os.Getenv] reads the
    environment and gives the empty string for a variable that is not
    set. *)
Definition os_Getenv (environ : gmap string string) (key : string) : string :=
  default "" (environ !! key).

Definition getEnv (environ : gmap string string) (key defaultValue : string)
  : string :=
  let value := os_Getenv environ key in
  if negb (String.eqb value "") then value else defaultValue.

(** The decimal numeral of a number, as a path parameter carries it. *)
Definition decimal (n : N) : string := NilZero.string_of_uint (N.to_uint n).

(** Only decimal digits. *)
Fixpoint allDigits (s : string) : bool :=
  match s with
  | String c rest => strconv.isDigit c && allDigits rest
  | EmptyString => true
  end.

(** ** A database and a network to run against

    A [gorm.DB] over the table of [adapters.World] and a transport over a
    map from URLs to responses; they serve as concrete inputs. *)

Module stub.

Fixpoint Is_ErrRecordNotFound (err : error) : bool :=
  match err with
  | errors_New text => String.eqb text "record not found"
  | fmt_Errorf_w _ cause => Is_ErrRecordNotFound cause
  end.

Definition zero : Pokemon.t := Pokemon.mk 0%N "" "" "" 0%Z 0%Z 0%Z 0%Z 0%Z.

Definition First (id : N) (w : adapters.World)
  : (Pokemon.t * option error) * adapters.World :=
  match List.find (fun p => N.eqb (Pokemon.ID p) id) (adapters.rows w) with
  | Some row => ((row, None), w)
  | None => ((zero, Some (errors_New "record not found")), w)
  end.

Definition Where_name_First (name : string) (w : adapters.World)
  : (Pokemon.t * option error) * adapters.World :=
  match List.find (adapters.hasName name) (adapters.rows w) with
  | Some row => ((row, None), w)
  | None => ((zero, Some (errors_New "record not found")), w)
  end.

Definition db : gorm.DB adapters.World :=
  gorm.mkDB adapters.Create First Where_name_First
    (fun w => ((adapters.rows w, None), w)) Is_ErrRecordNotFound.

Definition Decode (body : string) : ExternalPokemonResponse.t * option error :=
  if String.eqb body "{pikachu}" then (adapters.pikachu_entry, None)
  else (ExternalPokemonResponse.mk 0%Z "" 0%Z 0%Z 0%Z [],
        Some (errors_New "invalid character 'N' looking for beginning of value")).

Definition Get (url : string) (net : gmap string http.Response)
  : (http.Response * option error) * gmap string http.Response :=
  match net !! url with
  | Some resp => ((resp, None), net)
  | None =>
      ((http.mkResponse 0%Z "", Some (errors_New "dial tcp: connection refused")),
       net)
  end.

Definition client : external.pokeAPIClient (gmap string http.Response) :=
  external.mkClient "https://pokeapi.co/api/v2" (external.mkTransport Get Decode).

(** A network on which pikachu is served and missingno is not found. *)
Definition net : gmap string http.Response :=
  {[ "https://pokeapi.co/api/v2/pokemon/pikachu" := http.mkResponse 200%Z "{pikachu}";
     "https://pokeapi.co/api/v2/pokemon/missingno" := http.mkResponse 404%Z "Not Found" ]}.

End stub.

(** The number a string of digits stands for, read after [n]. *)
Fixpoint digitsValue (s : string) (n : N) : N :=
  match s with
  | String c rest => digitsValue rest (n * 10 + (N_of_ascii c - 48))%N
  | EmptyString => n
  end.

(** What the two creation handlers answer to what the service returned. *)
Definition creation_response (result : option Pokemon.t * option error)
  : handlers.Response :=
  match result with
  | (_, Some err) =>
      if String.eqb (Error err) "pokemon with this name already exists" then
        handlers.JSON http.StatusConflict (handlers.H_error (Error err))
      else
        handlers.JSON http.StatusInternalServerError (handlers.H_error (Error err))
  | (pokemon, None) => handlers.JSON http.StatusCreated (handlers.one pokemon)
  end.

(** The collaborators [c] with the lookup of the repository replaced by
    one that gives [answer] and leaves the state [after]. *)
Definition with_lookup {W : Type} (answer : option Pokemon.t * option error)
    (after : W) (c : ports.Collaborators W) : ports.Collaborators W :=
  ports.mkCollaborators
    (fun _ _ => (answer, after))
    (ports.apiClient_GetPokemonData c)
    (ports.repository_Create c).

(** A string of bytes below 0x80, on which [strings.TrimSpace] and
    [strings.ToLower] are exactly the functions of the Go library. *)
Definition isASCIIByte (c : ascii) : bool := (N_of_ascii c <? 128)%N.

Fixpoint isASCII (s : string) : bool :=
  match s with
  | String c rest => isASCIIByte c && isASCII rest
  | EmptyString => true
  end.

(** * Properties of the creation workflow *)

Import ports services.

(** ** How a run of [CreatePokemon] unfolds *)

Section CreatePokemonRuns.

Context {W : Type} (c : Collaborators W).

(** The run of [CreatePokemon], one collaborator answer at a time. *)
Lemma run_CreatePokemon (req : CreatePokemonRequest.t) (w : W) :
  run c (CreatePokemon req) w =
  let name := CreatePokemonRequest.Name req in
  let '((existingPokemon, lookupErr), w1) := repository_GetByName c name w in
  if is_nil lookupErr && negb (is_nil existingPokemon) then
    mkRun (Returned (None, Some (errors_New "pokemon with this name already exists")))
          [EvGetByName name] w1
  else
    let '((externalData, fetchErr), w2) := apiClient_GetPokemonData c name w1 in
    match fetchErr, externalData with
    | Some err, _ =>
        mkRun (Returned (None, Some (fmt_Errorf_w "failed to fetch Pokemon data: " err)))
              [EvGetByName name; EvGetPokemonData name] w2
    | None, None =>
        mkRun (Panicked "invalid memory address or nil pointer dereference")
              [EvGetByName name; EvGetPokemonData name] w2
    | None, Some data =>
        let pokemon :=
          Pokemon.mk 0%N (ExternalPokemonResponse.Name data)
            (CreatePokemonRequest.Type1 req) (CreatePokemonRequest.Type2 req)
            (ExternalPokemonResponse.Height data)
            (ExternalPokemonResponse.Weight data)
            (ExternalPokemonResponse.BaseExperience data) 0%Z 0%Z in
        let '((saved, saveErr), w3) := repository_Create c pokemon w2 in
        mkRun
          match saveErr with
          | Some err => Returned (None, Some (fmt_Errorf_w "failed to save Pokemon: " err))
          | None => Returned (Some saved, None)
          end
          [EvGetByName name; EvGetPokemonData name; EvCreate pokemon] w3
    end.
Proof.
  unfold CreatePokemon, call; cbn.
  destruct (repository_GetByName c _ w) as [[existingPokemon lookupErr] w1].
  destruct (is_nil lookupErr && negb (is_nil existingPokemon)); [reflexivity|].
  cbn.
  destruct (apiClient_GetPokemonData c _ w1) as [[externalData fetchErr] w2].
  destruct fetchErr as [err|]; [reflexivity|].
  destruct externalData as [data|]; [|reflexivity].
  cbn.
  destruct (repository_Create c _ w2) as [[saved saveErr] w3].
  destruct saveErr; reflexivity.
Qed.

(** The first call of [CreatePokemon] is the lookup, under the name of
    the request as it stands. *)
Lemma CreatePokemon_first_call (req : CreatePokemonRequest.t) (w : W) :
  head (trace (run c (CreatePokemon req) w))
  = Some (EvGetByName (CreatePokemonRequest.Name req)).
Proof.
  unfold CreatePokemon, call; cbn.
  destruct (repository_GetByName c _ w) as [[? ?] ?]; reflexivity.
Qed.

End CreatePokemonRuns.

(** The message of an error that wraps another never is the text of the
    duplicate-name error. *)
Lemma wrapped_not_duplicate_text (prefix : string) (rest : string) (cause : error) :
  prefix = String "f" rest ->
  Error (fmt_Errorf_w prefix cause) <> "pokemon with this name already exists".
Proof. intros ->; cbn; discriminate. Qed.

(** No run of [CreatePokemon] that went past the duplicate check reports
    an error that reads as the duplicate-name error. *)
Lemma past_check_not_duplicate {W : Type} (c : Collaborators W)
    (req : CreatePokemonRequest.t) (w w1 : W)
    (existingPokemon : option Pokemon.t) (lookupErr : option error) :
  repository_GetByName c (CreatePokemonRequest.Name req) w
    = ((existingPokemon, lookupErr), w1) ->
  is_nil lookupErr && negb (is_nil existingPokemon) = false ->
  (exists rest,
      trace (run c (CreatePokemon req) w)
      = EvGetByName (CreatePokemonRequest.Name req)
          :: EvGetPokemonData (CreatePokemonRequest.Name req) :: rest)
  /\ (forall result err,
        outcome (run c (CreatePokemon req) w) = Returned (result, Some err) ->
        Error err <> "pokemon with this name already exists").
Proof.
  intros Hlookup Hcheck.
  rewrite run_CreatePokemon; cbv zeta; rewrite Hlookup, Hcheck.
  destruct (apiClient_GetPokemonData c _ w1) as [[externalData fetchErr] w2].
  destruct fetchErr as [err|].
  - split; [eexists; reflexivity|].
    cbn [outcome]; intros result err' [= _ <-].
    eapply wrapped_not_duplicate_text; reflexivity.
  - destruct externalData as [data|].
    + destruct (repository_Create c _ w2) as [[saved saveErr] w3].
      split; [eexists; reflexivity|].
      cbn [outcome]; destruct saveErr as [err|]; intros result err'.
      * intros [= _ <-]. eapply wrapped_not_duplicate_text; reflexivity.
      * discriminate.
    + split; [eexists; reflexivity|].
      cbn [outcome]; discriminate.
Qed.

(** ** Duplicate names *)

(** C1: when the repository finds a record under the name of the request
    (a record and no error), [CreatePokemon] returns the duplicate-name
    error and no record, having called [GetByName] once and neither
    [GetPokemonData] nor [Create]. *)
Theorem CreatePokemon_duplicate_name {W : Type} (c : Collaborators W)
    (req : CreatePokemonRequest.t) (w w1 : W) (existing : Pokemon.t) :
  repository_GetByName c (CreatePokemonRequest.Name req) w
    = ((Some existing, None), w1) ->
  outcome (run c (CreatePokemon req) w)
    = Returned (None, Some (errors_New "pokemon with this name already exists"))
  /\ trace (run c (CreatePokemon req) w)
     = [EvGetByName (CreatePokemonRequest.Name req)]
  /\ calls isGetPokemonData (trace (run c (CreatePokemon req) w)) = []
  /\ calls isCreate (trace (run c (CreatePokemon req) w)) = []
  /\ world (run c (CreatePokemon req) w) = w1.
Proof.
  intros Hlookup.
  rewrite run_CreatePokemon; cbv zeta; rewrite Hlookup; cbn.
  repeat split.
Qed.

Lemma CreatePokemon_duplicate_name_witness :
  repository_GetByName adapters.collaborators "pikachu" adapters.with_pikachu
    = ((Some adapters.pikachu_row, None), adapters.with_pikachu)
  /\ outcome (run adapters.collaborators
                (CreatePokemon (CreatePokemonRequest.mk "pikachu" "electric" ""))
                adapters.with_pikachu)
     = Returned (None, Some (errors_New "pokemon with this name already exists")).
Proof.
  split; [reflexivity|].
  apply (CreatePokemon_duplicate_name adapters.collaborators
           (CreatePokemonRequest.mk "pikachu" "electric" "")
           adapters.with_pikachu adapters.with_pikachu adapters.pikachu_row).
  reflexivity.
Defined.

(** ** The record that is built *)

(** The type tags of the catalogue entry play no part in a run. *)
Lemma CreatePokemon_ignores_Types {W : Type} (c : Collaborators W)
    (tags : list ExternalPokemonResponse.TypeSlot)
    (req : CreatePokemonRequest.t) (w : W) :
  run (retagged tags c) (CreatePokemon req) w = run c (CreatePokemon req) w.
Proof.
  rewrite !run_CreatePokemon; cbn.
  destruct (repository_GetByName c _ w) as [[existingPokemon lookupErr] w1].
  destruct (is_nil lookupErr && negb (is_nil existingPokemon)); [reflexivity|].
  destruct (apiClient_GetPokemonData c _ w1) as [[externalData fetchErr] w2].
  destruct fetchErr, externalData; reflexivity.
Qed.

(** C2: when the duplicate check passes and the catalogue answers with an
    entry, the record [CreatePokemon] builds and hands to [Create] takes
    its name, height, weight and base experience from the entry (the name
    as the catalogue gave it) and its two types from the request; when
    [Create] reports no error, that record is returned as the repository
    left it, so with a repository that writes the id and the timestamps
    only, the returned record carries those six values.  The type tags of
    the entry make no difference to the run. *)
Theorem CreatePokemon_record_from_catalog_and_request {W : Type}
    (c : Collaborators W) (req : CreatePokemonRequest.t) (w w1 w2 w3 : W)
    (existing : option Pokemon.t) (lookupErr saveErr : option error)
    (data : ExternalPokemonResponse.t) (saved : Pokemon.t) :
  repository_GetByName c (CreatePokemonRequest.Name req) w
    = ((existing, lookupErr), w1) ->
  is_nil lookupErr && negb (is_nil existing) = false ->
  apiClient_GetPokemonData c (CreatePokemonRequest.Name req) w1
    = ((Some data, None), w2) ->
  repository_Create c
    (Pokemon.mk 0%N (ExternalPokemonResponse.Name data)
       (CreatePokemonRequest.Type1 req) (CreatePokemonRequest.Type2 req)
       (ExternalPokemonResponse.Height data)
       (ExternalPokemonResponse.Weight data)
       (ExternalPokemonResponse.BaseExperience data) 0%Z 0%Z) w2
    = ((saved, saveErr), w3) ->
  trace (run c (CreatePokemon req) w)
    = [EvGetByName (CreatePokemonRequest.Name req);
       EvGetPokemonData (CreatePokemonRequest.Name req);
       EvCreate
         (Pokemon.mk 0%N (ExternalPokemonResponse.Name data)
            (CreatePokemonRequest.Type1 req) (CreatePokemonRequest.Type2 req)
            (ExternalPokemonResponse.Height data)
            (ExternalPokemonResponse.Weight data)
            (ExternalPokemonResponse.BaseExperience data) 0%Z 0%Z)]
  /\ (saveErr = None ->
      outcome (run c (CreatePokemon req) w) = Returned (Some saved, None))
  /\ (saveErr = None ->
      payload saved
        = (ExternalPokemonResponse.Name data,
           CreatePokemonRequest.Type1 req, CreatePokemonRequest.Type2 req,
           ExternalPokemonResponse.Height data,
           ExternalPokemonResponse.Weight data,
           ExternalPokemonResponse.BaseExperience data) ->
      exists pokemon,
        outcome (run c (CreatePokemon req) w) = Returned (Some pokemon, None)
        /\ Pokemon.Name pokemon = ExternalPokemonResponse.Name data
        /\ Pokemon.Height pokemon = ExternalPokemonResponse.Height data
        /\ Pokemon.Weight pokemon = ExternalPokemonResponse.Weight data
        /\ Pokemon.BaseExp pokemon = ExternalPokemonResponse.BaseExperience data
        /\ Pokemon.Type1 pokemon = CreatePokemonRequest.Type1 req
        /\ Pokemon.Type2 pokemon = CreatePokemonRequest.Type2 req)
  /\ (forall tags,
        run (retagged tags c) (CreatePokemon req) w = run c (CreatePokemon req) w).
Proof.
  intros Hlookup Hcheck Hfetch Hsave.
  split; [|split; [|split]].
  - rewrite run_CreatePokemon; cbv zeta.
    rewrite Hlookup, Hcheck, Hfetch, Hsave. reflexivity.
  - intros ->. rewrite run_CreatePokemon; cbv zeta.
    rewrite Hlookup, Hcheck, Hfetch, Hsave. reflexivity.
  - intros -> Hkept. exists saved.
    rewrite run_CreatePokemon; cbv zeta.
    rewrite Hlookup, Hcheck, Hfetch, Hsave.
    unfold payload in Hkept. injection Hkept as -> -> -> -> -> ->.
    repeat split.
  - intros tags. apply CreatePokemon_ignores_Types.
Qed.

Lemma CreatePokemon_record_from_catalog_and_request_witness :
  outcome (run adapters.collaborators
             (CreatePokemon (CreatePokemonRequest.mk "pikachu" "electric" ""))
             adapters.fresh)
  = Returned
      (Some (Pokemon.mk 1%N "pikachu" "electric" "" 4%Z 60%Z 112%Z
               1700000000%Z 1700000000%Z), None).
Proof.
  refine (proj1 (proj2
    (CreatePokemon_record_from_catalog_and_request adapters.collaborators
       (CreatePokemonRequest.mk "pikachu" "electric" "")
       adapters.fresh adapters.fresh adapters.fresh
       (snd (adapters.Create
               (Pokemon.mk 0%N "pikachu" "electric" "" 4%Z 60%Z 112%Z 0%Z 0%Z)
               adapters.fresh))
       None (Some (errors_New "pokemon not found")) None
       adapters.pikachu_entry
       (Pokemon.mk 1%N "pikachu" "electric" "" 4%Z 60%Z 112%Z
          1700000000%Z 1700000000%Z)
       _ _ _ _)) _); reflexivity.
Defined.

(** ** Lookup errors *)

(** C5: when [GetByName] answers with an error, whichever it is and with
    or without a record next to it, [CreatePokemon] does not fail on it:
    it goes on as it does when no record exists.  It calls the catalogue
    client with the name of the request, and the run is decided by that
    answer and by [Create] alone: a fetch error is returned wrapped, an
    entry is built into the record that is handed to [Create], and when
    [Create] reports no error the record is returned.  The run is the
    same as with any other answer of the lookup that is not a found
    record, so it does not depend on the lookup error, and nothing
    returned reads as the duplicate-name error. *)
Theorem CreatePokemon_lookup_error_proceeds {W : Type} (c : Collaborators W)
    (req : CreatePokemonRequest.t) (w w1 w2 : W)
    (existing : option Pokemon.t) (lookupErr : error)
    (data : option ExternalPokemonResponse.t) (fetchErr : option error) :
  repository_GetByName c (CreatePokemonRequest.Name req) w
    = ((existing, Some lookupErr), w1) ->
  apiClient_GetPokemonData c (CreatePokemonRequest.Name req) w1
    = ((data, fetchErr), w2) ->
  (exists rest,
      trace (run c (CreatePokemon req) w)
      = EvGetByName (CreatePokemonRequest.Name req)
          :: EvGetPokemonData (CreatePokemonRequest.Name req) :: rest)
  /\ (forall result err,
        outcome (run c (CreatePokemon req) w) = Returned (result, Some err) ->
        Error err <> "pokemon with this name already exists")
  /\ (forall cause, fetchErr = Some cause ->
      run c (CreatePokemon req) w
      = mkRun (Returned (None, Some (fmt_Errorf_w "failed to fetch Pokemon data: "
                                       cause)))
          [EvGetByName (CreatePokemonRequest.Name req);
           EvGetPokemonData (CreatePokemonRequest.Name req)] w2)
  /\ (forall entry saved saveErr w3,
        fetchErr = None -> data = Some entry ->
        repository_Create c
          (Pokemon.mk 0%N (ExternalPokemonResponse.Name entry)
             (CreatePokemonRequest.Type1 req) (CreatePokemonRequest.Type2 req)
             (ExternalPokemonResponse.Height entry)
             (ExternalPokemonResponse.Weight entry)
             (ExternalPokemonResponse.BaseExperience entry) 0%Z 0%Z) w2
          = ((saved, saveErr), w3) ->
        run c (CreatePokemon req) w
        = mkRun
            match saveErr with
            | Some cause =>
                Returned (None, Some (fmt_Errorf_w "failed to save Pokemon: " cause))
            | None => Returned (Some saved, None)
            end
            [EvGetByName (CreatePokemonRequest.Name req);
             EvGetPokemonData (CreatePokemonRequest.Name req);
             EvCreate
               (Pokemon.mk 0%N (ExternalPokemonResponse.Name entry)
                  (CreatePokemonRequest.Type1 req)
                  (CreatePokemonRequest.Type2 req)
                  (ExternalPokemonResponse.Height entry)
                  (ExternalPokemonResponse.Weight entry)
                  (ExternalPokemonResponse.BaseExperience entry) 0%Z 0%Z)]
            w3)
  /\ (forall other,
        is_nil (snd other) && negb (is_nil (fst other)) = false ->
        run c (CreatePokemon req) w
        = run (with_lookup other w1 c) (CreatePokemon req) w).
Proof.
  intros Hlookup Hfetch.
  split; [|split; [|split; [|split]]].
  - eapply past_check_not_duplicate; [exact Hlookup|reflexivity].
  - eapply past_check_not_duplicate; [exact Hlookup|reflexivity].
  - intros cause ->. rewrite run_CreatePokemon; cbv zeta.
    rewrite Hlookup, Hfetch. reflexivity.
  - intros entry saved saveErr w3 -> -> Hsave.
    rewrite run_CreatePokemon; cbv zeta.
    rewrite Hlookup, Hfetch, Hsave. cbn. destruct saveErr; reflexivity.
  - intros [otherRecord otherErr] Hother. cbn [fst snd] in Hother.
    rewrite !run_CreatePokemon; cbv zeta.
    rewrite Hlookup. cbn. rewrite Hother. reflexivity.
Qed.

Lemma CreatePokemon_lookup_error_proceeds_witness :
  run mock.collaborators
    (CreatePokemon (CreatePokemonRequest.mk "pikachu" "electric" ""))
    (mock.mkScript (Some adapters.pikachu_row,
                    Some (errors_New "connection refused"))
                   (Some adapters.pikachu_entry, None) None)
  = mkRun
      (Returned
         (Some (Pokemon.mk 0%N "pikachu" "electric" "" 4%Z 60%Z 112%Z 0%Z 0%Z),
          None))
      [EvGetByName "pikachu"; EvGetPokemonData "pikachu";
       EvCreate (Pokemon.mk 0%N "pikachu" "electric" "" 4%Z 60%Z 112%Z 0%Z 0%Z)]
      (mock.mkScript (Some adapters.pikachu_row,
                      Some (errors_New "connection refused"))
                     (Some adapters.pikachu_entry, None) None).
Proof.
  refine (proj1 (proj2 (proj2 (proj2
    (CreatePokemon_lookup_error_proceeds mock.collaborators
       (CreatePokemonRequest.mk "pikachu" "electric" "")
       (mock.mkScript (Some adapters.pikachu_row,
                       Some (errors_New "connection refused"))
                      (Some adapters.pikachu_entry, None) None)
       _ _ (Some adapters.pikachu_row) (errors_New "connection refused")
       (Some adapters.pikachu_entry) None eq_refl eq_refl))))
    adapters.pikachu_entry
    (Pokemon.mk 0%N "pikachu" "electric" "" 4%Z 60%Z 112%Z 0%Z 0%Z)
    None _ eq_refl eq_refl eq_refl).
Defined.

(** ** Failures of the collaborators *)

(** C7: when the duplicate check passes and [GetPokemonData] answers with
    an error, [CreatePokemon] returns no record and an error whose message
    is ["failed to fetch Pokemon data: "] followed by the message of the
    client's error, which it wraps; [Create] is not called. *)
Theorem CreatePokemon_fetch_failure {W : Type} (c : Collaborators W)
    (req : CreatePokemonRequest.t) (w w1 w2 : W)
    (existing : option Pokemon.t) (lookupErr : option error)
    (data : option ExternalPokemonResponse.t) (cause : error) :
  repository_GetByName c (CreatePokemonRequest.Name req) w
    = ((existing, lookupErr), w1) ->
  is_nil lookupErr && negb (is_nil existing) = false ->
  apiClient_GetPokemonData c (CreatePokemonRequest.Name req) w1
    = ((data, Some cause), w2) ->
  exists err,
    outcome (run c (CreatePokemon req) w) = Returned (None, Some err)
    /\ Error err = "failed to fetch Pokemon data: " +:+ Error cause
    /\ Unwrap err = Some cause
    /\ trace (run c (CreatePokemon req) w)
       = [EvGetByName (CreatePokemonRequest.Name req);
          EvGetPokemonData (CreatePokemonRequest.Name req)]
    /\ calls isCreate (trace (run c (CreatePokemon req) w)) = []
    /\ world (run c (CreatePokemon req) w) = w2.
Proof.
  intros Hlookup Hcheck Hfetch.
  exists (fmt_Errorf_w "failed to fetch Pokemon data: " cause).
  rewrite run_CreatePokemon; cbv zeta.
  rewrite Hlookup, Hcheck, Hfetch.
  repeat split.
Qed.

Lemma CreatePokemon_fetch_failure_witness :
  exists err,
    outcome (run adapters.collaborators
               (CreatePokemon (CreatePokemonRequest.mk "missingno" "normal" ""))
               adapters.fresh)
    = Returned (None, Some err)
    /\ Error err = "failed to fetch Pokemon data: pokemon 'missingno' not found".
Proof.
  destruct
    (CreatePokemon_fetch_failure adapters.collaborators
       (CreatePokemonRequest.mk "missingno" "normal" "")
       adapters.fresh adapters.fresh adapters.fresh
       None (Some (errors_New "pokemon not found")) None
       (errors_New "pokemon 'missingno' not found")
       eq_refl eq_refl eq_refl)
    as (err & Hout & Hmsg & _).
  exists err. split; [exact Hout | exact Hmsg].
Defined.

(** C8: when the duplicate check passes, the catalogue answers with an
    entry and [Create] reports an error, [CreatePokemon] returns a [nil]
    record, not the one it built, and an error whose message is
    ["failed to save Pokemon: "] followed by the message of the
    repository's error, which it wraps. *)
Theorem CreatePokemon_save_failure {W : Type} (c : Collaborators W)
    (req : CreatePokemonRequest.t) (w w1 w2 w3 : W)
    (existing : option Pokemon.t) (lookupErr : option error)
    (data : ExternalPokemonResponse.t) (left_behind : Pokemon.t)
    (cause : error) :
  repository_GetByName c (CreatePokemonRequest.Name req) w
    = ((existing, lookupErr), w1) ->
  is_nil lookupErr && negb (is_nil existing) = false ->
  apiClient_GetPokemonData c (CreatePokemonRequest.Name req) w1
    = ((Some data, None), w2) ->
  repository_Create c
    (Pokemon.mk 0%N (ExternalPokemonResponse.Name data)
       (CreatePokemonRequest.Type1 req) (CreatePokemonRequest.Type2 req)
       (ExternalPokemonResponse.Height data)
       (ExternalPokemonResponse.Weight data)
       (ExternalPokemonResponse.BaseExperience data) 0%Z 0%Z) w2
    = ((left_behind, Some cause), w3) ->
  exists err,
    outcome (run c (CreatePokemon req) w) = Returned (None, Some err)
    /\ Error err = "failed to save Pokemon: " +:+ Error cause
    /\ Unwrap err = Some cause
    /\ world (run c (CreatePokemon req) w) = w3.
Proof.
  intros Hlookup Hcheck Hfetch Hsave.
  exists (fmt_Errorf_w "failed to save Pokemon: " cause).
  rewrite run_CreatePokemon; cbv zeta.
  rewrite Hlookup, Hcheck, Hfetch, Hsave.
  repeat split.
Qed.

Lemma CreatePokemon_save_failure_witness :
  exists err,
    outcome (run mock.collaborators
               (CreatePokemon (CreatePokemonRequest.mk "charizard" "fire" ""))
               (mock.mkScript (None, Some (errors_New "not found"))
                              (Some adapters.charizard_entry, None)
                              (Some (errors_New "database error"))))
    = Returned (None, Some err)
    /\ Error err = "failed to save Pokemon: database error".
Proof.
  destruct
    (CreatePokemon_save_failure mock.collaborators
       (CreatePokemonRequest.mk "charizard" "fire" "")
       (mock.mkScript (None, Some (errors_New "not found"))
                      (Some adapters.charizard_entry, None)
                      (Some (errors_New "database error")))
       _ _ _ None (Some (errors_New "not found")) adapters.charizard_entry
       (Pokemon.mk 0%N "charizard" "fire" "" 17%Z 905%Z 267%Z 0%Z 0%Z)
       (errors_New "database error")
       eq_refl eq_refl eq_refl eq_refl)
    as (err & Hout & Hmsg & _).
  exists err. split; [exact Hout | exact Hmsg].
Defined.

(** ** The flexible entry point *)

(** With an empty resolved name the flexible entry point is a program
    that returns at once. *)
Lemma CreatePokemonFlexible_empty_name (req : FlexiblePokemonRequest.t) :
  extractPokemonName req = "" ->
  CreatePokemonFlexible req
  = Ret (None, Some (errors_New "pokemon name is required")).
Proof. intros Hname. unfold CreatePokemonFlexible. rewrite Hname. reflexivity. Qed.

(** C6: when the name of a flexible request resolves to the empty string,
    [CreatePokemonFlexible] returns the missing-name error at once: no
    call reaches the repository or the client, and their state is as it
    was. *)
Theorem CreatePokemonFlexible_missing_name {W : Type} (c : Collaborators W)
    (req : FlexiblePokemonRequest.t) (w : W) :
  extractPokemonName req = "" ->
  run c (CreatePokemonFlexible req) w
  = mkRun (Returned (None, Some (errors_New "pokemon name is required"))) [] w.
Proof.
  intros Hname. rewrite (CreatePokemonFlexible_empty_name req Hname).
  reflexivity.
Qed.

Lemma CreatePokemonFlexible_missing_name_witness :
  run adapters.collaborators
    (CreatePokemonFlexible (FlexiblePokemonRequest.mk "" "grass" "" None))
    adapters.fresh
  = mkRun (Returned (None, Some (errors_New "pokemon name is required"))) []
      adapters.fresh.
Proof.
  apply (CreatePokemonFlexible_missing_name adapters.collaborators
           (FlexiblePokemonRequest.mk "" "grass" "" None) adapters.fresh).
  reflexivity.
Defined.

(** C9: when the name of a flexible request resolves to a non-empty string
    [n], [CreatePokemonFlexible] is [CreatePokemon] on the request with
    name [n] and the two types of the flexible request: the same program,
    hence the same record, error, calls and final state against any
    collaborators. *)
Theorem CreatePokemonFlexible_delegates (req : FlexiblePokemonRequest.t)
    (n : string) :
  extractPokemonName req = n ->
  n <> "" ->
  CreatePokemonFlexible req
  = CreatePokemon
      (CreatePokemonRequest.mk n (FlexiblePokemonRequest.Type1 req)
         (FlexiblePokemonRequest.Type2 req))
  /\ forall (W : Type) (c : Collaborators W) (w : W),
      run c (CreatePokemonFlexible req) w
      = run c (CreatePokemon
                 (CreatePokemonRequest.mk n (FlexiblePokemonRequest.Type1 req)
                    (FlexiblePokemonRequest.Type2 req))) w.
Proof.
  intros Hname Hne.
  assert (Hprog : CreatePokemonFlexible req
                  = CreatePokemon
                      (CreatePokemonRequest.mk n
                         (FlexiblePokemonRequest.Type1 req)
                         (FlexiblePokemonRequest.Type2 req))).
  { unfold CreatePokemonFlexible. rewrite Hname.
    destruct (String.eqb_spec n ""); [contradiction | reflexivity]. }
  split; [exact Hprog|].
  intros W c w. rewrite Hprog. reflexivity.
Qed.

Lemma CreatePokemonFlexible_delegates_witness :
  CreatePokemonFlexible
    (FlexiblePokemonRequest.mk "" "fire" "flying"
       (Some {[ "name" := any_string "  Charizard " ]}))
  = CreatePokemon (CreatePokemonRequest.mk "charizard" "fire" "flying").
Proof.
  refine (proj1
    (CreatePokemonFlexible_delegates
       (FlexiblePokemonRequest.mk "" "fire" "flying"
          (Some {[ "name" := any_string "  Charizard " ]}))
       "charizard" _ _)).
  - vm_compute. reflexivity.
  - discriminate.
Defined.

(** ** When a name counts as taken *)

(** C10: [CreatePokemon] returns the duplicate-name error exactly when
    [GetByName] answers with a record and no error.  On every other
    answer (an error, with or without a record, or neither a record nor an
    error) it goes on to the catalogue call and nothing it returns reads
    as the duplicate-name error. *)
Theorem CreatePokemon_duplicate_only_when_found {W : Type}
    (c : Collaborators W) (req : CreatePokemonRequest.t) (w w1 : W)
    (existing : option Pokemon.t) (lookupErr : option error) :
  repository_GetByName c (CreatePokemonRequest.Name req) w
    = ((existing, lookupErr), w1) ->
  (outcome (run c (CreatePokemon req) w)
     = Returned (None, Some (errors_New "pokemon with this name already exists"))
   <-> lookupErr = None /\ existing <> None)
  /\ (~ (lookupErr = None /\ existing <> None) ->
      (exists rest,
          trace (run c (CreatePokemon req) w)
          = EvGetByName (CreatePokemonRequest.Name req)
              :: EvGetPokemonData (CreatePokemonRequest.Name req) :: rest)
      /\ (forall result err,
            outcome (run c (CreatePokemon req) w) = Returned (result, Some err) ->
            Error err <> "pokemon with this name already exists")).
Proof.
  intros Hlookup.
  destruct lookupErr as [lookupErr|], existing as [pokemon|].
  1, 2, 4:
    destruct (past_check_not_duplicate c req w w1 _ _ Hlookup eq_refl)
      as [Htrace Hmsg];
    (split; [split|]);
    [ intros Hout; exfalso; exact (Hmsg _ _ Hout eq_refl)
    | intros [Herr Hrec]; congruence
    | intros _; split; assumption ].
  split; [split|].
  - intros _. split; [reflexivity | discriminate].
  - intros _. rewrite run_CreatePokemon; cbv zeta; rewrite Hlookup. reflexivity.
  - intros Hno. exfalso. apply Hno. split; [reflexivity | discriminate].
Qed.

Lemma CreatePokemon_duplicate_only_when_found_witness :
  exists rest,
    trace (run mock.collaborators
             (CreatePokemon (CreatePokemonRequest.mk "pikachu" "electric" ""))
             (mock.mkScript (None, None) (Some adapters.pikachu_entry, None) None))
    = EvGetByName "pikachu" :: EvGetPokemonData "pikachu" :: rest.
Proof.
  refine (proj1 (proj2
    (CreatePokemon_duplicate_only_when_found mock.collaborators
       (CreatePokemonRequest.mk "pikachu" "electric" "")
       (mock.mkScript (None, None) (Some adapters.pikachu_entry, None) None)
       _ None None eq_refl) _)).
  intros [_ Hrec]. apply Hrec. reflexivity.
Defined.

(** ** Name resolution *)

Lemma normalized_empty : strings.ToLower (strings.TrimSpace "") = "".
Proof. reflexivity. Qed.

(** The name the service resolves is the normalised content of the first
    place that holds something to read. *)
Lemma extractPokemonName_firstPresent (input : FlexiblePokemonRequest.t) :
  extractPokemonName input
  = normalized (firstPresent [topLevelName input; nestedName input;
                              nestedPokemon input]).
Proof.
  unfold extractPokemonName, topLevelName, nestedName, nestedPokemon.
  destruct (String.eqb (FlexiblePokemonRequest.Name input) ""); cbn;
    [|reflexivity].
  destruct (FlexiblePokemonRequest.Pokemon input) as [fields|]; cbn;
    [|reflexivity].
  destruct (fields !! "name") as [nameValue|]; cbn.
  - destruct (assert_string nameValue) as [nameStr|]; cbn; [reflexivity|].
    destruct (assert_string (index fields "pokemon")); reflexivity.
  - destruct (assert_string (index fields "pokemon")); reflexivity.
Qed.

(** A top-level name of three spaces is read, normalises to the empty
    string and ends the resolution: the nested name is not consulted,
    where the resolution as specified passes on to it. *)
Lemma blank_top_level_name_counterexample :
  strings.ToLower (strings.TrimSpace (FlexiblePokemonRequest.Name blank_top_level)) = ""
  /\ nestedName blank_top_level = Some "pikachu"
  /\ specified_resolution blank_top_level = "pikachu"
  /\ extractPokemonName blank_top_level = ""
  /\ ~ (forall input, extractPokemonName input = specified_resolution input).
Proof.
  assert (Hspec : specified_resolution blank_top_level = "pikachu")
    by (vm_compute; reflexivity).
  assert (Hcode : extractPokemonName blank_top_level = "")
    by (vm_compute; reflexivity).
  repeat split; try assumption; try (vm_compute; reflexivity).
  intros Hall. specialize (Hall blank_top_level).
  rewrite Hspec, Hcode in Hall. discriminate.
Qed.

(** C3 (as the code has it): the name is resolved from the top-level
    name, then the nested ["name"], then the nested ["pokemon"], and a
    place of lower precedence is consulted only when every place above it
    holds nothing to read: the top-level name is the empty string as
    received, the nested ["name"] is missing or not a string.  The first
    place that holds something decides, also when it normalises to the
    empty string.  Whenever the resolved name is non-empty it is the one
    the specified resolution gives; when it is empty the request is
    refused with the missing-name error. *)
Theorem extractPokemonName_precedence (input : FlexiblePokemonRequest.t) :
  extractPokemonName input
  = normalized (firstPresent [topLevelName input; nestedName input;
                              nestedPokemon input])
  /\ (extractPokemonName input <> "" ->
      extractPokemonName input = specified_resolution input)
  /\ (extractPokemonName input = "" ->
      forall (W : Type) (c : Collaborators W) (w : W),
        run c (CreatePokemonFlexible input) w
        = mkRun (Returned (None, Some (errors_New "pokemon name is required")))
            [] w).
Proof.
  split; [apply extractPokemonName_firstPresent|split].
  - rewrite extractPokemonName_firstPresent.
    unfold specified_resolution, topLevelName.
    destruct (String.eqb_spec (FlexiblePokemonRequest.Name input) "") as [Hraw|Hraw].
    + rewrite Hraw, normalized_empty. cbn.
      destruct (nestedName input) as [nameStr|]; cbn;
        [|destruct (nestedPokemon input); reflexivity].
      intros Hne.
      destruct (String.eqb_spec (strings.ToLower (strings.TrimSpace nameStr)) "");
        [contradiction | reflexivity].
    + cbn. intros Hne.
      destruct (String.eqb_spec
                  (strings.ToLower
                     (strings.TrimSpace (FlexiblePokemonRequest.Name input))) "");
        [contradiction | reflexivity].
  - intros Hname W c w.
    rewrite (CreatePokemonFlexible_empty_name input Hname). reflexivity.
Qed.

Lemma extractPokemonName_precedence_witness :
  extractPokemonName
    (FlexiblePokemonRequest.mk "" "water" ""
       (Some {[ "name" := any_float64 7; "pokemon" := any_string "  SQUIRTLE  " ]}))
  = specified_resolution
      (FlexiblePokemonRequest.mk "" "water" ""
         (Some {[ "name" := any_float64 7; "pokemon" := any_string "  SQUIRTLE  " ]})).
Proof.
  refine (proj1 (proj2
    (extractPokemonName_precedence
       (FlexiblePokemonRequest.mk "" "water" ""
          (Some {[ "name" := any_float64 7;
                   "pokemon" := any_string "  SQUIRTLE  " ]})))) _).
  vm_compute. discriminate.
Defined.

(** ** Names as given and names as normalised *)

(** C4 (the direct entry point at a name that is not normalised): with
    pikachu stored, [CreatePokemon] on the name ["  PIKACHU  "] looks the
    repository up under that very string, misses the stored record, and
    ends in the save error of the unique-name constraint; the flexible
    entry point on the same name normalises it first, finds the record and
    returns the duplicate-name error, as it does for ["pikachu"]. *)
Theorem CreatePokemon_name_not_normalized :
  trace (run adapters.collaborators
           (CreatePokemon (CreatePokemonRequest.mk "  PIKACHU  " "electric" ""))
           adapters.with_pikachu)
  = [EvGetByName "  PIKACHU  "; EvGetPokemonData "  PIKACHU  ";
     EvCreate (Pokemon.mk 0%N "pikachu" "electric" "" 4%Z 60%Z 112%Z 0%Z 0%Z)]
  /\ outcome (run adapters.collaborators
                (CreatePokemon (CreatePokemonRequest.mk "  PIKACHU  " "electric" ""))
                adapters.with_pikachu)
     = Returned
         (None,
          Some (fmt_Errorf_w "failed to save Pokemon: "
                  (errors_New "duplicate key value violates unique constraint")))
  /\ run adapters.collaborators
       (CreatePokemonFlexible
          (FlexiblePokemonRequest.mk "  PIKACHU  " "electric" "" None))
       adapters.with_pikachu
     = mkRun (Returned (None, Some (errors_New "pokemon with this name already exists")))
         [EvGetByName "pikachu"] adapters.with_pikachu
  /\ CreatePokemonFlexible
       (FlexiblePokemonRequest.mk "  PIKACHU  " "electric" "" None)
     = CreatePokemonFlexible
         (FlexiblePokemonRequest.mk "pikachu" "electric" "" None).
Proof.
  repeat split.
Qed.

(** * Further properties *)

(** ** Normalisation of names *)

(** A tactic for facts about single bytes: all 256 of them are tried. *)
Ltac by_bytes c :=
  destruct c as [[] [] [] [] [] [] [] []]; vm_compute; reflexivity.

Lemma isSpace_toLowerByte (c : ascii) :
  strings.isSpace (strings.toLowerByte c) = strings.isSpace c.
Proof. by_bytes c. Qed.

Lemma toLowerByte_idem (c : ascii) :
  strings.toLowerByte (strings.toLowerByte c) = strings.toLowerByte c.
Proof. by_bytes c. Qed.

Lemma ToLower_idem (s : string) :
  strings.ToLower (strings.ToLower s) = strings.ToLower s.
Proof.
  induction s as [|c s IH]; cbn; [reflexivity|].
  rewrite toLowerByte_idem, IH. reflexivity.
Qed.

Lemma TrimLeft_ToLower (s : string) :
  strings.TrimLeft (strings.ToLower s) = strings.ToLower (strings.TrimLeft s).
Proof.
  induction s as [|c s IH]; cbn; [reflexivity|].
  rewrite isSpace_toLowerByte.
  destruct (strings.isSpace c); [exact IH | reflexivity].
Qed.

Lemma TrimRight_ToLower (s : string) :
  strings.TrimRight (strings.ToLower s) = strings.ToLower (strings.TrimRight s).
Proof.
  induction s as [|c s IH]; cbn; [reflexivity|].
  rewrite IH, isSpace_toLowerByte.
  destruct (strings.TrimRight s); cbn; [|reflexivity].
  destruct (strings.isSpace c); reflexivity.
Qed.

Lemma TrimLeft_startsClean (s : string) : startsClean (strings.TrimLeft s) = true.
Proof.
  induction s as [|c s IH]; cbn; [reflexivity|].
  destruct (strings.isSpace c) eqn:Hc; [exact IH|].
  cbn. rewrite Hc. reflexivity.
Qed.

Lemma TrimLeft_clean (s : string) :
  startsClean s = true -> strings.TrimLeft s = s.
Proof.
  destruct s as [|c s]; cbn; [reflexivity|].
  destruct (strings.isSpace c); [discriminate | reflexivity].
Qed.

Lemma TrimRight_startsClean (s : string) :
  startsClean s = true -> startsClean (strings.TrimRight s) = true.
Proof.
  destruct s as [|c s]; cbn; [reflexivity|].
  intros Hc. destruct (strings.TrimRight s); cbn.
  - destruct (strings.isSpace c) eqn:Hsp; [discriminate|].
    cbn. rewrite Hsp. reflexivity.
  - exact Hc.
Qed.

Lemma TrimRight_cons (c : ascii) (rest : string) :
  strings.TrimRight (String c rest)
  = match strings.TrimRight rest with
    | EmptyString =>
        if strings.isSpace c then EmptyString else String c EmptyString
    | kept => String c kept
    end.
Proof. reflexivity. Qed.

Lemma TrimRight_idem (s : string) :
  strings.TrimRight (strings.TrimRight s) = strings.TrimRight s.
Proof.
  induction s as [|c s IH]; [reflexivity|].
  rewrite TrimRight_cons.
  destruct (strings.TrimRight s) as [|k kept] eqn:Hkept.
  - destruct (strings.isSpace c) eqn:Hc; [reflexivity|].
    rewrite TrimRight_cons. cbn. rewrite Hc. reflexivity.
  - rewrite TrimRight_cons, IH. reflexivity.
Qed.

Lemma TrimSpace_idem (s : string) :
  strings.TrimSpace (strings.TrimSpace s) = strings.TrimSpace s.
Proof.
  unfold strings.TrimSpace.
  rewrite (TrimLeft_clean (strings.TrimRight (strings.TrimLeft s))).
  - apply TrimRight_idem.
  - apply TrimRight_startsClean, TrimLeft_startsClean.
Qed.

Lemma TrimSpace_ToLower (s : string) :
  strings.TrimSpace (strings.ToLower s) = strings.ToLower (strings.TrimSpace s).
Proof.
  unfold strings.TrimSpace. rewrite TrimLeft_ToLower, TrimRight_ToLower.
  reflexivity.
Qed.

(** Trimming and lowercasing a second time changes nothing. *)
Lemma normalize_idem (s : string) :
  strings.ToLower (strings.TrimSpace (strings.ToLower (strings.TrimSpace s)))
  = strings.ToLower (strings.TrimSpace s).
Proof. rewrite TrimSpace_ToLower, TrimSpace_idem, ToLower_idem. reflexivity. Qed.

(** Trimming and lowercasing keep a string of ASCII bytes one. *)
Lemma toLowerByte_isASCII (c : ascii) :
  implb (isASCIIByte c) (isASCIIByte (strings.toLowerByte c)) = true.
Proof. by_bytes c. Qed.

Lemma ToLower_isASCII (s : string) :
  isASCII s = true -> isASCII (strings.ToLower s) = true.
Proof.
  induction s as [|c s IH]; cbn; [reflexivity|].
  intros Hs. apply andb_true_iff in Hs as [Hc Hrest].
  pose proof (toLowerByte_isASCII c) as Hlow. rewrite Hc in Hlow. cbn in Hlow.
  rewrite Hlow, (IH Hrest). reflexivity.
Qed.

Lemma TrimLeft_isASCII (s : string) :
  isASCII s = true -> isASCII (strings.TrimLeft s) = true.
Proof.
  induction s as [|c s IH]; cbn; [reflexivity|].
  intros Hs. destruct (strings.isSpace c); [|exact Hs].
  apply andb_true_iff in Hs as [_ Hrest]. exact (IH Hrest).
Qed.

Lemma TrimRight_isASCII (s : string) :
  isASCII s = true -> isASCII (strings.TrimRight s) = true.
Proof.
  induction s as [|c s IH]; [reflexivity|].
  intros Hs. cbn [isASCII] in Hs. apply andb_true_iff in Hs as [Hc Hrest].
  rewrite TrimRight_cons. specialize (IH Hrest).
  destruct (strings.TrimRight s) as [|k kept].
  - destruct (strings.isSpace c); cbn; [reflexivity|].
    rewrite Hc. reflexivity.
  - cbn [isASCII]. rewrite Hc. exact IH.
Qed.

Lemma normalize_isASCII (s : string) :
  isASCII s = true ->
  isASCII (strings.ToLower (strings.TrimSpace s)) = true.
Proof.
  intros Hs. apply ToLower_isASCII, TrimRight_isASCII, TrimLeft_isASCII, Hs.
Qed.

(** With a top-level name that is not the empty string, the resolved name
    is that name, normalised. *)
Lemma extractPokemonName_top_level (input : FlexiblePokemonRequest.t) :
  FlexiblePokemonRequest.Name input <> "" ->
  extractPokemonName input
  = strings.ToLower (strings.TrimSpace (FlexiblePokemonRequest.Name input)).
Proof.
  intros Hraw. unfold extractPokemonName.
  destruct (String.eqb_spec (FlexiblePokemonRequest.Name input) "");
    [contradiction | reflexivity].
Qed.

(** X1: for a request that carries its name in ASCII bytes (where
    [strings.TrimSpace] and [strings.ToLower] are the functions of the Go
    library), the name [extractPokemonName] resolves is ASCII and is
    normalised already: trimming and lowercasing it again gives the same
    string, whichever of the three places it was read from. *)
Theorem extractPokemonName_normalized (input : FlexiblePokemonRequest.t) :
  (forall raw,
      firstPresent [topLevelName input; nestedName input; nestedPokemon input]
      = Some raw ->
      isASCII raw = true) ->
  isASCII (extractPokemonName input) = true
  /\ strings.ToLower (strings.TrimSpace (extractPokemonName input))
     = extractPokemonName input.
Proof.
  intros Hascii.
  rewrite extractPokemonName_firstPresent.
  destruct (firstPresent _) as [raw|]; cbn; [|split; reflexivity].
  split; [apply normalize_isASCII, Hascii; reflexivity | apply normalize_idem].
Qed.

Lemma extractPokemonName_normalized_witness :
  isASCII
    (extractPokemonName
       (FlexiblePokemonRequest.mk "" "fire" "flying"
          (Some {[ "name" := any_string "  Charizard " ]}))) = true
  /\ strings.ToLower
       (strings.TrimSpace
          (extractPokemonName
             (FlexiblePokemonRequest.mk "" "fire" "flying"
                (Some {[ "name" := any_string "  Charizard " ]}))))
     = extractPokemonName
         (FlexiblePokemonRequest.mk "" "fire" "flying"
            (Some {[ "name" := any_string "  Charizard " ]})).
Proof.
  apply (extractPokemonName_normalized
           (FlexiblePokemonRequest.mk "" "fire" "flying"
              (Some {[ "name" := any_string "  Charizard " ]}))).
  vm_compute. intros raw [= <-]. reflexivity.
Defined.

(** X2: for a top-level name in ASCII bytes (where [strings.TrimSpace]
    and [strings.ToLower] are the functions of the Go library), a flexible
    request and the same request with that name replaced by the
    normalised name, which is ASCII again, are the same program, provided
    the normalised name is not empty: spelling a name in upper case or
    with blanks around it changes nothing on the flexible entry point. *)
Theorem CreatePokemonFlexible_normalization_invariant
    (req : FlexiblePokemonRequest.t) :
  isASCII (FlexiblePokemonRequest.Name req) = true ->
  strings.ToLower (strings.TrimSpace (FlexiblePokemonRequest.Name req)) <> "" ->
  isASCII (strings.ToLower (strings.TrimSpace (FlexiblePokemonRequest.Name req)))
    = true
  /\ CreatePokemonFlexible
       (FlexiblePokemonRequest.mk
          (strings.ToLower (strings.TrimSpace (FlexiblePokemonRequest.Name req)))
          (FlexiblePokemonRequest.Type1 req) (FlexiblePokemonRequest.Type2 req)
          (FlexiblePokemonRequest.Pokemon req))
     = CreatePokemonFlexible req.
Proof.
  intros Hascii Hne.
  split; [apply normalize_isASCII, Hascii|].
  assert (Hraw : FlexiblePokemonRequest.Name req <> "").
  { intros Hraw. apply Hne. rewrite Hraw. reflexivity. }
  assert (Hsame :
    extractPokemonName
      (FlexiblePokemonRequest.mk
         (strings.ToLower (strings.TrimSpace (FlexiblePokemonRequest.Name req)))
         (FlexiblePokemonRequest.Type1 req) (FlexiblePokemonRequest.Type2 req)
         (FlexiblePokemonRequest.Pokemon req))
    = extractPokemonName req).
  { rewrite !extractPokemonName_top_level by assumption.
    apply normalize_idem. }
  unfold CreatePokemonFlexible. rewrite Hsame. reflexivity.
Qed.

Lemma CreatePokemonFlexible_normalization_invariant_witness :
  CreatePokemonFlexible (FlexiblePokemonRequest.mk "pikachu" "electric" "" None)
  = CreatePokemonFlexible
      (FlexiblePokemonRequest.mk "  PIKACHU  " "electric" "" None).
Proof.
  refine (proj2
    (CreatePokemonFlexible_normalization_invariant
       (FlexiblePokemonRequest.mk "  PIKACHU  " "electric" "" None) _ _)).
  - reflexivity.
  - vm_compute. discriminate.
Defined.

(** ** What a run of the service consists of *)

(** X3: a run of [CreatePokemon] makes its calls in one fixed order and
    each at most once: the lookup, then the fetch under the same name, then
    [Create]; the record handed to [Create] has no id and no timestamps
    yet and carries the two types of the request. *)
Theorem CreatePokemon_calls_in_order {W : Type} (c : Collaborators W)
    (req : CreatePokemonRequest.t) (w : W) :
  trace (run c (CreatePokemon req) w)
    = [EvGetByName (CreatePokemonRequest.Name req)]
  \/ trace (run c (CreatePokemon req) w)
     = [EvGetByName (CreatePokemonRequest.Name req);
        EvGetPokemonData (CreatePokemonRequest.Name req)]
  \/ exists pokemon,
      trace (run c (CreatePokemon req) w)
      = [EvGetByName (CreatePokemonRequest.Name req);
         EvGetPokemonData (CreatePokemonRequest.Name req);
         EvCreate pokemon]
      /\ Pokemon.ID pokemon = 0%N
      /\ Pokemon.CreatedAt pokemon = 0%Z
      /\ Pokemon.UpdatedAt pokemon = 0%Z
      /\ Pokemon.Type1 pokemon = CreatePokemonRequest.Type1 req
      /\ Pokemon.Type2 pokemon = CreatePokemonRequest.Type2 req.
Proof.
  rewrite run_CreatePokemon; cbv zeta.
  destruct (repository_GetByName c _ w) as [[existingPokemon lookupErr] w1].
  destruct (is_nil lookupErr && negb (is_nil existingPokemon)); [left; reflexivity|].
  destruct (apiClient_GetPokemonData c _ w1) as [[externalData fetchErr] w2].
  destruct fetchErr as [err|]; [right; left; reflexivity|].
  destruct externalData as [data|]; [|right; left; reflexivity].
  destruct (repository_Create c _ w2) as [[saved saveErr] w3].
  right; right. eexists. split; [reflexivity|]. repeat split.
Qed.

(** X4: when [CreatePokemon] returns, it returns a record or an error and
    never both or neither; a record is returned only after a [Create] call
    that reported no error. *)
Theorem CreatePokemon_record_xor_error {W : Type} (c : Collaborators W)
    (req : CreatePokemonRequest.t) (w : W)
    (record : option Pokemon.t) (err : option error) :
  outcome (run c (CreatePokemon req) w) = Returned (record, err) ->
  is_nil record = negb (is_nil err)
  /\ (is_nil record = false ->
      calls isCreate (trace (run c (CreatePokemon req) w)) <> []).
Proof.
  rewrite run_CreatePokemon; cbv zeta.
  destruct (repository_GetByName c _ w) as [[existingPokemon lookupErr] w1].
  destruct (is_nil lookupErr && negb (is_nil existingPokemon)).
  { cbn. intros [= <- <-]. split; [reflexivity | discriminate]. }
  destruct (apiClient_GetPokemonData c _ w1) as [[externalData fetchErr] w2].
  destruct fetchErr as [ferr|].
  { cbn. intros [= <- <-]. split; [reflexivity | discriminate]. }
  destruct externalData as [data|]; [|discriminate].
  destruct (repository_Create c _ w2) as [[saved saveErr] w3].
  destruct saveErr as [serr|]; cbn; intros [= <- <-];
    (split; [reflexivity|]); discriminate.
Qed.

Lemma CreatePokemon_record_xor_error_witness :
  is_nil (Some (Pokemon.mk 1%N "pikachu" "electric" "" 4%Z 60%Z 112%Z
                  1700000000%Z 1700000000%Z))
  = negb (is_nil (@None error)).
Proof.
  refine (proj1
    (CreatePokemon_record_xor_error adapters.collaborators
       (CreatePokemonRequest.mk "pikachu" "electric" "") adapters.fresh
       _ _ _)).
  reflexivity.
Defined.

(** X5: [CreatePokemon] panics in exactly one situation: the duplicate
    check has passed and the client answered with neither an entry nor an
    error.  [Create] is not called then. *)
Theorem CreatePokemon_panics_only_on_nil_entry {W : Type} (c : Collaborators W)
    (req : CreatePokemonRequest.t) (w w1 w2 : W)
    (existing : option Pokemon.t) (lookupErr fetchErr : option error)
    (data : option ExternalPokemonResponse.t) :
  repository_GetByName c (CreatePokemonRequest.Name req) w
    = ((existing, lookupErr), w1) ->
  apiClient_GetPokemonData c (CreatePokemonRequest.Name req) w1
    = ((data, fetchErr), w2) ->
  ((exists reason, outcome (run c (CreatePokemon req) w) = Panicked reason)
   <-> is_nil lookupErr && negb (is_nil existing) = false
       /\ data = None /\ fetchErr = None)
  /\ ((exists reason, outcome (run c (CreatePokemon req) w) = Panicked reason) ->
      calls isCreate (trace (run c (CreatePokemon req) w)) = []).
Proof.
  intros Hlookup Hfetch.
  rewrite run_CreatePokemon; cbv zeta. rewrite Hlookup.
  destruct (is_nil lookupErr && negb (is_nil existing)).
  { cbn. split; [split|].
    - intros [reason Hout]; discriminate.
    - intros [Hcheck _]; discriminate.
    - reflexivity. }
  rewrite Hfetch.
  destruct fetchErr as [ferr|].
  { cbn. split; [split|].
    - intros [reason Hout]; discriminate.
    - intros (_ & _ & Hnil); discriminate.
    - reflexivity. }
  destruct data as [entry|].
  - destruct (repository_Create c _ w2) as [[saved saveErr] w3].
    cbn. split; [split|].
    + intros [reason Hout]. destruct saveErr; discriminate.
    + intros (_ & Hnil & _); discriminate.
    + intros [reason Hout]. destruct saveErr; discriminate.
  - cbn. split; [split|].
    + intros _. repeat split.
    + intros _. eexists; reflexivity.
    + reflexivity.
Qed.

Lemma CreatePokemon_panics_only_on_nil_entry_witness :
  exists reason,
    outcome (run mock.collaborators
               (CreatePokemon (CreatePokemonRequest.mk "pikachu" "electric" ""))
               (mock.mkScript (None, Some (errors_New "not found"))
                              (None, None) None))
    = Panicked reason.
Proof.
  refine (proj2 (proj1
    (CreatePokemon_panics_only_on_nil_entry mock.collaborators
       (CreatePokemonRequest.mk "pikachu" "electric" "")
       (mock.mkScript (None, Some (errors_New "not found")) (None, None) None)
       _ _ None (Some (errors_New "not found")) None None eq_refl eq_refl)) _).
  repeat split.
Defined.

(** X6: for a request that carries its name in ASCII bytes (where
    [strings.TrimSpace] and [strings.ToLower] are the functions of the Go
    library), every name that reaches the repository lookup or the client
    on the flexible entry point is the resolved name, which is not empty,
    is ASCII and is normalised. *)
Theorem CreatePokemonFlexible_calls_by_normalized_name {W : Type}
    (c : Collaborators W) (req : FlexiblePokemonRequest.t) (w : W) :
  (forall raw,
      firstPresent [topLevelName req; nestedName req; nestedPokemon req]
      = Some raw ->
      isASCII raw = true) ->
  Forall (fun e =>
            forall name, name_of e = Some name ->
              name = extractPokemonName req
              /\ name <> ""
              /\ isASCII name = true
              /\ strings.ToLower (strings.TrimSpace name) = name)
         (trace (run c (CreatePokemonFlexible req) w)).
Proof.
  intros Hascii.
  unfold CreatePokemonFlexible.
  destruct (String.eqb_spec (extractPokemonName req) "") as [Hempty|Hne].
  { cbn. constructor. }
  assert (Hgood : forall name, Some (extractPokemonName req) = Some name ->
            name = extractPokemonName req /\ name <> ""
            /\ isASCII name = true
            /\ strings.ToLower (strings.TrimSpace name) = name).
  { intros name [= <-]. split; [reflexivity|]. split; [exact Hne|].
    rewrite extractPokemonName_firstPresent.
    destruct (firstPresent _) as [raw|]; cbn; [|split; reflexivity].
    split; [apply normalize_isASCII, Hascii; reflexivity
           | apply normalize_idem]. }
  rewrite run_CreatePokemon; cbv zeta; cbn [CreatePokemonRequest.Name].
  destruct (repository_GetByName c _ w) as [[existingPokemon lookupErr] w1].
  destruct (is_nil lookupErr && negb (is_nil existingPokemon));
    [|destruct (apiClient_GetPokemonData c _ w1) as [[externalData fetchErr] w2];
      destruct fetchErr as [ferr|];
      [|destruct externalData as [data|];
        [destruct (repository_Create c _ w2) as [[saved saveErr] w3]|]]];
    cbn [trace];
    repeat (apply Forall_cons_2; [first [exact Hgood | cbn; discriminate]|]);
    apply Forall_nil_2.
Qed.

Lemma CreatePokemonFlexible_calls_by_normalized_name_witness :
  Forall (fun e =>
            forall name, name_of e = Some name ->
              name = extractPokemonName
                       (FlexiblePokemonRequest.mk "  PIKACHU  " "electric" "" None)
              /\ name <> ""
              /\ isASCII name = true
              /\ strings.ToLower (strings.TrimSpace name) = name)
         (trace (run adapters.collaborators
                   (CreatePokemonFlexible
                      (FlexiblePokemonRequest.mk "  PIKACHU  " "electric" "" None))
                   adapters.fresh)).
Proof.
  apply (CreatePokemonFlexible_calls_by_normalized_name adapters.collaborators
           (FlexiblePokemonRequest.mk "  PIKACHU  " "electric" "" None)
           adapters.fresh).
  vm_compute. intros raw [= <-]. reflexivity.
Defined.

(** ** The PokeAPI client *)

(** The client's answer is an entry or an error. *)
Lemma GetPokemonData_xor {H : Type}
    (c : external.pokeAPIClient H) (identifier : string) (h : H) :
  is_nil (fst (fst (external.GetPokemonData c identifier h)))
  = negb (is_nil (snd (fst (external.GetPokemonData c identifier h)))).
Proof.
  unfold external.GetPokemonData.
  destruct (external.Get _ _ h) as [[resp err] h1].
  destruct err as [err|]; [reflexivity|].
  destruct (http.StatusCode resp =? http.StatusNotFound)%Z; [reflexivity|].
  destruct (negb (http.StatusCode resp =? http.StatusOK)%Z); [reflexivity|].
  destruct (external.Decode _ _) as [pokemonData [err|]]; reflexivity.
Qed.

(** X7: [GetPokemonData] answers with an entry or with an error, never
    with both and never with neither; the entry is the decoded body of a
    response with status 200. *)
Theorem GetPokemonData_entry_xor_error {H : Type}
    (c : external.pokeAPIClient H) (identifier : string) (h : H) :
  is_nil (fst (fst (external.GetPokemonData c identifier h)))
  = negb (is_nil (snd (fst (external.GetPokemonData c identifier h))))
  /\ (forall entry,
        fst (fst (external.GetPokemonData c identifier h)) = Some entry ->
        exists resp h1,
          external.Get (external.httpClient c)
            (external.baseURL c +:+ "/pokemon/"
               +:+ strings.ToLower (strings.TrimSpace identifier)) h
          = ((resp, None), h1)
          /\ http.StatusCode resp = 200%Z
          /\ external.Decode (external.httpClient c) (http.Body resp)
             = (entry, None)).
Proof.
  split; [apply GetPokemonData_xor|].
  unfold external.GetPokemonData.
  destruct (external.Get _ _ h) as [[resp err] h1].
  destruct err as [err|]; [discriminate|].
  destruct (http.StatusCode resp =? http.StatusNotFound)%Z; [discriminate|].
  destruct (Z.eqb_spec (http.StatusCode resp) http.StatusOK) as [Hok|];
    [|discriminate].
  destruct (external.Decode _ _) as [pokemonData [err|]] eqn:Hdec;
    cbn; [discriminate|].
  intros entry [= <-]. exists resp, h1. repeat split; assumption.
Qed.

(** X8: for an identifier in ASCII bytes (where [strings.TrimSpace] and
    [strings.ToLower] are the functions of the Go library), the client
    normalises the identifier it is given: the normalised identifier is
    ASCII again, and handing it to the client makes the same request and
    gives the same answer. *)
Theorem GetPokemonData_normalizes_identifier {H : Type}
    (c : external.pokeAPIClient H) (identifier : string) (h : H) :
  isASCII identifier = true ->
  isASCII (strings.ToLower (strings.TrimSpace identifier)) = true
  /\ external.GetPokemonData c
       (strings.ToLower (strings.TrimSpace identifier)) h
     = external.GetPokemonData c identifier h.
Proof.
  intros Hascii. split; [apply normalize_isASCII, Hascii|].
  unfold external.GetPokemonData. rewrite normalize_idem. reflexivity.
Qed.

Lemma GetPokemonData_normalizes_identifier_witness :
  external.GetPokemonData stub.client "pikachu" stub.net
  = external.GetPokemonData stub.client "  PIKACHU " stub.net.
Proof.
  refine (proj2
    (GetPokemonData_normalizes_identifier stub.client "  PIKACHU " stub.net _)).
  reflexivity.
Defined.

(** X13: the two lookups of the repository, by id and by name, answer
    with a record or with an error, never with both and never with
    neither; so the service never meets a lookup without a record and
    without an error on this repository. *)
Theorem repository_lookup_record_xor_error {D : Type} (db : gorm.DB D) (d : D) :
  (forall id,
      is_nil (fst (fst (repositories.GetByID db id d)))
      = negb (is_nil (snd (fst (repositories.GetByID db id d)))))
  /\ (forall name,
        is_nil (fst (fst (repositories.GetByName db name d)))
        = negb (is_nil (snd (fst (repositories.GetByName db name d))))).
Proof.
  split.
  - intros id. unfold repositories.GetByID.
    destruct (gorm.First db id d) as [[pokemon err] d1].
    destruct err as [err|]; [|reflexivity].
    destruct (gorm.Is_ErrRecordNotFound db err); reflexivity.
  - intros name. unfold repositories.GetByName.
    destruct (gorm.Where_name_First db name d) as [[pokemon err] d1].
    destruct err as [err|]; [|reflexivity].
    destruct (gorm.Is_ErrRecordNotFound db err); reflexivity.
Qed.

(** X9: wired to the PokeAPI client, neither entry point of the service
    panics: whatever the database and the network answer, a record or an
    error is returned. *)
Theorem wired_service_never_panics {D H : Type} (db : gorm.DB D)
    (client : external.pokeAPIClient H) (d : D) (h : H) :
  (forall req, exists result,
      outcome (run (wired db client) (CreatePokemon req) (d, h))
      = Returned result)
  /\ (forall req, exists result,
        outcome (run (wired db client) (CreatePokemonFlexible req) (d, h))
        = Returned result).
Proof.
  assert (Hdirect : forall req, exists result,
             outcome (run (wired db client) (CreatePokemon req) (d, h))
             = Returned result).
  { intros req. rewrite run_CreatePokemon; cbv zeta. cbn.
    destruct (repositories.GetByName db _ d) as [[existing lookupErr] d1].
    destruct (is_nil lookupErr && negb (is_nil existing)); [eexists; reflexivity|].
    pose proof (GetPokemonData_xor client (CreatePokemonRequest.Name req) h)
      as Hxor.
    destruct (external.GetPokemonData client _ h) as [[data fetchErr] h1].
    cbn in Hxor.
    destruct fetchErr as [ferr|]; [eexists; reflexivity|].
    destruct data as [entry|]; [|discriminate].
    destruct (repositories.Create db _ d1) as [[saved saveErr] d2].
    destruct saveErr; eexists; reflexivity. }
  split; [exact Hdirect|].
  intros req. unfold CreatePokemonFlexible.
  destruct (String.eqb _ ""); [eexists; reflexivity | apply Hdirect].
Qed.

Lemma GetPokemonData_entry_xor_error_witness :
  exists resp h1,
    external.Get (external.httpClient stub.client)
      "https://pokeapi.co/api/v2/pokemon/pikachu" stub.net
    = ((resp, None), h1)
    /\ http.StatusCode resp = 200%Z
    /\ external.Decode (external.httpClient stub.client) (http.Body resp)
       = (adapters.pikachu_entry, None).
Proof.
  refine (proj2
    (GetPokemonData_entry_xor_error stub.client "  PIKACHU " stub.net)
    adapters.pikachu_entry _).
  vm_compute. reflexivity.
Defined.

(** X10: a name the remote service does not know (status 404) comes back
    from [CreatePokemon] as the error
    ["failed to fetch Pokemon data: pokemon '<name>' not found"], with the
    name trimmed and lowercased in the message; nothing is written to the
    database. *)
Theorem wired_CreatePokemon_unknown_name {D H : Type} (db : gorm.DB D)
    (client : external.pokeAPIClient H) (req : CreatePokemonRequest.t)
    (d d1 : D) (h h1 : H) (row : Pokemon.t) (dbErr : error)
    (resp : http.Response) :
  gorm.Where_name_First db (CreatePokemonRequest.Name req) d
    = ((row, Some dbErr), d1) ->
  external.Get (external.httpClient client)
    (external.baseURL client +:+ "/pokemon/"
       +:+ strings.ToLower (strings.TrimSpace (CreatePokemonRequest.Name req))) h
    = ((resp, None), h1) ->
  http.StatusCode resp = 404%Z ->
  exists err,
    outcome (run (wired db client) (CreatePokemon req) (d, h))
    = Returned (None, Some err)
    /\ Error err
       = "failed to fetch Pokemon data: pokemon '"
           +:+ strings.ToLower (strings.TrimSpace (CreatePokemonRequest.Name req))
           +:+ "' not found"
    /\ calls isCreate (trace (run (wired db client) (CreatePokemon req) (d, h)))
       = []
    /\ world (run (wired db client) (CreatePokemon req) (d, h)) = (d1, h1).
Proof.
  intros Hrow Hget Hstatus.
  rewrite run_CreatePokemon; cbv zeta. cbn.
  unfold repositories.GetByName. rewrite Hrow.
  assert (Hfetch :
    external.GetPokemonData client (CreatePokemonRequest.Name req) h
    = ((None,
        Some (errors_New
                ("pokemon '"
                   +:+ strings.ToLower
                         (strings.TrimSpace (CreatePokemonRequest.Name req))
                   +:+ "' not found"))), h1)).
  { unfold external.GetPokemonData. rewrite Hget, Hstatus. reflexivity. }
  destruct (gorm.Is_ErrRecordNotFound db dbErr); cbn; rewrite Hfetch;
    eexists; repeat split.
Qed.

Lemma wired_CreatePokemon_unknown_name_witness :
  exists err,
    outcome (run (wired stub.db stub.client)
               (CreatePokemon (CreatePokemonRequest.mk " MissingNo" "normal" ""))
               (adapters.fresh, stub.net))
    = Returned (None, Some err)
    /\ Error err = "failed to fetch Pokemon data: pokemon 'missingno' not found".
Proof.
  destruct
    (wired_CreatePokemon_unknown_name stub.db stub.client
       (CreatePokemonRequest.mk " MissingNo" "normal" "")
       adapters.fresh adapters.fresh stub.net stub.net
       stub.zero (errors_New "record not found")
       (http.mkResponse 404%Z "Not Found")
       eq_refl eq_refl eq_refl)
    as (err & Hout & Hmsg & _).
  exists err. split; [exact Hout | exact Hmsg].
Defined.

(** X11: on the repository over the database, [CreatePokemon] returns the
    duplicate-name error exactly when the query by name reports no error;
    the network is not touched then.  When the query reports an error,
    whichever it is, creation proceeds: the client is asked, its error is
    returned wrapped, and its entry is built into the record handed to
    the database, which is returned when the insert reports no error. *)
Theorem wired_CreatePokemon_duplicate_iff_row {D H : Type} (db : gorm.DB D)
    (client : external.pokeAPIClient H) (req : CreatePokemonRequest.t)
    (d d1 : D) (h h1 : H) (row : Pokemon.t) (dbErr : option error)
    (data : option ExternalPokemonResponse.t) (fetchErr : option error) :
  gorm.Where_name_First db (CreatePokemonRequest.Name req) d
    = ((row, dbErr), d1) ->
  external.GetPokemonData client (CreatePokemonRequest.Name req) h
    = ((data, fetchErr), h1) ->
  (outcome (run (wired db client) (CreatePokemon req) (d, h))
   = Returned (None, Some (errors_New "pokemon with this name already exists"))
   <-> dbErr = None)
  /\ (dbErr = None ->
      trace (run (wired db client) (CreatePokemon req) (d, h))
      = [EvGetByName (CreatePokemonRequest.Name req)]
      /\ world (run (wired db client) (CreatePokemon req) (d, h)) = (d1, h))
  /\ (forall queryErr cause,
        dbErr = Some queryErr -> fetchErr = Some cause ->
        run (wired db client) (CreatePokemon req) (d, h)
        = mkRun (Returned (None, Some (fmt_Errorf_w "failed to fetch Pokemon data: "
                                         cause)))
            [EvGetByName (CreatePokemonRequest.Name req);
             EvGetPokemonData (CreatePokemonRequest.Name req)] (d1, h1))
  /\ (forall queryErr entry saved saveErr d2,
        dbErr = Some queryErr -> fetchErr = None -> data = Some entry ->
        gorm.Create db
          (Pokemon.mk 0%N (ExternalPokemonResponse.Name entry)
             (CreatePokemonRequest.Type1 req) (CreatePokemonRequest.Type2 req)
             (ExternalPokemonResponse.Height entry)
             (ExternalPokemonResponse.Weight entry)
             (ExternalPokemonResponse.BaseExperience entry) 0%Z 0%Z) d1
          = ((saved, saveErr), d2) ->
        run (wired db client) (CreatePokemon req) (d, h)
        = mkRun
            match saveErr with
            | Some cause =>
                Returned (None, Some (fmt_Errorf_w "failed to save Pokemon: " cause))
            | None => Returned (Some saved, None)
            end
            [EvGetByName (CreatePokemonRequest.Name req);
             EvGetPokemonData (CreatePokemonRequest.Name req);
             EvCreate
               (Pokemon.mk 0%N (ExternalPokemonResponse.Name entry)
                  (CreatePokemonRequest.Type1 req)
                  (CreatePokemonRequest.Type2 req)
                  (ExternalPokemonResponse.Height entry)
                  (ExternalPokemonResponse.Weight entry)
                  (ExternalPokemonResponse.BaseExperience entry) 0%Z 0%Z)]
            (d2, h1)).
Proof.
  intros Hrow Hget.
  assert (Hlookup :
    repository_GetByName (wired db client) (CreatePokemonRequest.Name req) (d, h)
    = ((fst (fst (repositories.GetByName db (CreatePokemonRequest.Name req) d)),
        snd (fst (repositories.GetByName db (CreatePokemonRequest.Name req) d))),
       (d1, h))).
  { cbn. unfold repositories.GetByName. rewrite Hrow.
    destruct dbErr as [e|]; [|reflexivity].
    destruct (gorm.Is_ErrRecordNotFound db e); reflexivity. }
  assert (Hfetch :
    apiClient_GetPokemonData (wired db client) (CreatePokemonRequest.Name req)
      (d1, h)
    = ((data, fetchErr), (d1, h1))).
  { cbn. rewrite Hget. reflexivity. }
  destruct dbErr as [e|].
  - assert (Hcheck :
      is_nil (snd (fst (repositories.GetByName db
                          (CreatePokemonRequest.Name req) d)))
      && negb (is_nil (fst (fst (repositories.GetByName db
                                   (CreatePokemonRequest.Name req) d))))
      = false).
    { unfold repositories.GetByName. rewrite Hrow.
      destruct (gorm.Is_ErrRecordNotFound db e); reflexivity. }
    destruct (past_check_not_duplicate (wired db client) req (d, h) (d1, h)
                _ _ Hlookup Hcheck) as [_ Hmsg].
    split; [split|split; [|split]].
    + intros Hout. exfalso. exact (Hmsg _ _ Hout eq_refl).
    + discriminate.
    + discriminate.
    + intros queryErr cause _ ->.
      rewrite run_CreatePokemon; cbv zeta.
      rewrite Hlookup, Hcheck, Hfetch. reflexivity.
    + intros queryErr entry saved saveErr d2 _ -> -> Hsave.
      rewrite run_CreatePokemon; cbv zeta.
      rewrite Hlookup, Hcheck, Hfetch.
      cbn. unfold repositories.Create. rewrite Hsave.
      destruct saveErr; reflexivity.
  - assert (Hrun :
      run (wired db client) (CreatePokemon req) (d, h)
      = mkRun (Returned (None, Some (errors_New "pokemon with this name already exists")))
          [EvGetByName (CreatePokemonRequest.Name req)] (d1, h)).
    { rewrite run_CreatePokemon; cbv zeta. rewrite Hlookup.
      unfold repositories.GetByName. rewrite Hrow. reflexivity. }
    rewrite Hrun.
    split; [split; intros _; reflexivity|].
    split; [intros _; split; reflexivity|].
    split; intros; discriminate.
Qed.

Lemma wired_CreatePokemon_duplicate_iff_row_witness :
  run (wired stub.db stub.client)
    (CreatePokemon (CreatePokemonRequest.mk "pikachu" "electric" ""))
    (adapters.fresh, stub.net)
  = mkRun
      (Returned
         (Some (Pokemon.mk 1%N "pikachu" "electric" "" 4%Z 60%Z 112%Z
                  1700000000%Z 1700000000%Z), None))
      [EvGetByName "pikachu"; EvGetPokemonData "pikachu";
       EvCreate (Pokemon.mk 0%N "pikachu" "electric" "" 4%Z 60%Z 112%Z 0%Z 0%Z)]
      (snd (adapters.Create
              (Pokemon.mk 0%N "pikachu" "electric" "" 4%Z 60%Z 112%Z 0%Z 0%Z)
              adapters.fresh),
       stub.net).
Proof.
  refine (proj2 (proj2 (proj2
    (wired_CreatePokemon_duplicate_iff_row stub.db stub.client
       (CreatePokemonRequest.mk "pikachu" "electric" "")
       adapters.fresh adapters.fresh stub.net stub.net
       stub.zero (Some (errors_New "record not found"))
       (Some adapters.pikachu_entry) None eq_refl _)))
    (errors_New "record not found") adapters.pikachu_entry
    (Pokemon.mk 1%N "pikachu" "electric" "" 4%Z 60%Z 112%Z
       1700000000%Z 1700000000%Z)
    None _ eq_refl eq_refl eq_refl _).
  - vm_compute. reflexivity.
  - vm_compute. reflexivity.
Defined.

(** ** Parsing the id of a path *)

Lemma digitsValue_ge (s : string) (n : N) : (n <= digitsValue s n)%N.
Proof.
  revert n. induction s as [|c s IH]; intros n; cbn; [lia|].
  etransitivity; [|apply IH]. lia.
Qed.

Lemma isDigit_value (c : ascii) :
  strconv.isDigit c = true -> (N_of_ascii c - 48 <= 9)%N.
Proof.
  unfold strconv.isDigit. intros Hd.
  apply andb_true_iff in Hd as [_ Hhi]. apply N.leb_le in Hhi. lia.
Qed.

(** On a string of digits the loop of [ParseUint] at 32 bits gives the
    number the digits stand for, or the range error when that number does
    not fit. *)
Lemma parseLoop_digits (s : string) (n : N) :
  allDigits s = true ->
  (n <= 2 ^ 32 - 1)%N ->
  strconv.parseLoop (2 ^ 32 - 1) s n
  = if (digitsValue s n <=? 2 ^ 32 - 1)%N then (digitsValue s n, None)
    else ((2 ^ 32 - 1)%N, Some strconv.ErrRange).
Proof.
  revert n. induction s as [|c s IH]; intros n Hdigits Hn.
  - cbn [strconv.parseLoop digitsValue].
    destruct (N.leb_spec n (2 ^ 32 - 1)); [reflexivity | lia].
  - cbn [allDigits] in Hdigits. apply andb_true_iff in Hdigits as [Hc Hrest].
    cbn [strconv.parseLoop digitsValue]. rewrite Hc.
    pose proof (isDigit_value c Hc) as Hd.
    assert (Hcut : (strconv.cutoff <=? n)%N = false).
    { apply N.leb_gt. unfold strconv.cutoff.
      change ((2 ^ 64 - 1) / 10 + 1)%N with 1844674407370955162%N.
      change (2 ^ 32 - 1)%N with 4294967295%N in Hn. lia. }
    rewrite Hcut. cbv zeta.
    change (2 ^ 32 - 1)%N with 4294967295%N in *.
    change (2 ^ 64)%N with 18446744073709551616%N.
    rewrite (N.mod_small (n * 10)) by lia.
    rewrite (N.mod_small (n * 10 + _)) by lia.
    assert (Hlt : (n * 10 + (N_of_ascii c - 48) <? n * 10)%N = false)
      by (apply N.ltb_ge; lia).
    rewrite Hlt. cbn [orb].
    destruct (N.ltb_spec 4294967295 (n * 10 + (N_of_ascii c - 48))) as [Hover|Hfit].
    + pose proof (digitsValue_ge s (n * 10 + (N_of_ascii c - 48))) as Hge.
      destruct (N.leb_spec (digitsValue s (n * 10 + (N_of_ascii c - 48)))
                  4294967295); [lia | reflexivity].
    + apply IH; assumption.
Qed.

(** Anything but a digit in the string makes the loop fail. *)
Lemma parseLoop_not_digits (maxVal : N) (s : string) (n : N) :
  allDigits s = false -> snd (strconv.parseLoop maxVal s n) <> None.
Proof.
  revert n. induction s as [|c s IH]; intros n Hdigits; [discriminate|].
  cbn [allDigits] in Hdigits. cbn [strconv.parseLoop].
  destruct (strconv.isDigit c); [|cbn; discriminate].
  cbn [andb] in Hdigits.
  destruct (strconv.cutoff <=? n)%N; [cbn; discriminate|].
  cbv zeta. destruct (_ || _); [cbn; discriminate|].
  apply IH; assumption.
Qed.

Lemma digitsValue_of_uint_acc (u : Decimal.uint) (acc : positive) :
  digitsValue (NilEmpty.string_of_uint u) (N.pos acc)
  = N.pos (Pos.of_uint_acc u acc).
Proof.
  revert acc. induction u; intros acc; cbn [NilEmpty.string_of_uint digitsValue
                                            Pos.of_uint_acc];
    [reflexivity | ..];
    match goal with
    | |- digitsValue _ ?x = N.pos (Pos.of_uint_acc _ ?y) =>
        replace x with (N.pos y) by (cbn; lia)
    end; apply IHu.
Qed.

Lemma digitsValue_of_uint (u : Decimal.uint) :
  digitsValue (NilEmpty.string_of_uint u) 0 = N.of_uint u.
Proof.
  unfold N.of_uint.
  induction u; cbn [NilEmpty.string_of_uint digitsValue Pos.of_uint];
    [reflexivity | exact IHu | ..];
    match goal with
    | |- digitsValue _ ?x = N.pos (Pos.of_uint_acc _ ?y) =>
        change x with (N.pos y)
    end; apply digitsValue_of_uint_acc.
Qed.

Lemma allDigits_of_uint (u : Decimal.uint) :
  allDigits (NilEmpty.string_of_uint u) = true.
Proof. induction u; cbn; [reflexivity | exact IHu ..]. Qed.

(** The decimal numeral of a number: digits only, not empty, standing for
    that number. *)
Lemma decimal_spec (n : N) :
  allDigits (decimal n) = true
  /\ decimal n <> ""
  /\ digitsValue (decimal n) 0 = n.
Proof.
  unfold decimal, NilZero.string_of_uint.
  pose proof (DecimalN.Unsigned.of_to n) as Hof.
  pose proof (digitsValue_of_uint (N.to_uint n)) as Hval.
  pose proof (allDigits_of_uint (N.to_uint n)) as Hdig.
  destruct (N.to_uint n) eqn:Hu.
  1: { cbn in Hof. subst n. repeat split. discriminate. }
  all: repeat split; [exact Hdig | discriminate | congruence].
Qed.

(** X12: the decimal numeral of a number below [2^32] parses back to that
    number; from [2^32] on [ParseUint] reports the range error with the
    largest 32-bit value. *)
Theorem ParseUint_decimal (n : N) :
  strconv.ParseUint (decimal n) 32
  = if (n <? 2 ^ 32)%N then (n, None)
    else ((2 ^ 32 - 1)%N, Some strconv.ErrRange).
Proof.
  destruct (decimal_spec n) as (Hdig & Hne & Hval).
  unfold strconv.ParseUint.
  destruct (String.eqb_spec (decimal n) ""); [contradiction|].
  rewrite parseLoop_digits by (assumption || (vm_compute; discriminate)).
  rewrite Hval.
  change (2 ^ 32 - 1)%N with 4294967295%N.
  change (2 ^ 32)%N with 4294967296%N.
  destruct (N.leb_spec n 4294967295), (N.ltb_spec n 4294967296);
    (reflexivity || lia).
Qed.

(** What [ParseUint] accepts at 32 bits is a non-empty string of decimal
    digits whose value is below [2^32], and the number it gives is that
    value. *)
Lemma ParseUint_accepts_only_uint32 (s : string) (n : N) :
  strconv.ParseUint s 32 = (n, None) ->
  s <> "" /\ allDigits s = true /\ n = digitsValue s 0 /\ (n < 2 ^ 32)%N.
Proof.
  unfold strconv.ParseUint.
  destruct (String.eqb_spec s "") as [|Hne]; [discriminate|].
  intros Hparse.
  destruct (allDigits s) eqn:Hdig.
  - rewrite parseLoop_digits in Hparse
      by (assumption || (vm_compute; discriminate)).
    change (2 ^ 32 - 1)%N with 4294967295%N in Hparse.
    change (2 ^ 32)%N with 4294967296%N.
    destruct (N.leb_spec (digitsValue s 0) 4294967295); [|discriminate].
    injection Hparse as <-. repeat split; [assumption | lia].
  - exfalso. apply (parseLoop_not_digits (2 ^ 32 - 1) s 0 Hdig).
    rewrite Hparse. reflexivity.
Qed.

(** ** The handlers *)

(** A run of two programs in sequence: the second starts where the first
    returned, and a panic of the first ends the run. *)
Lemma run_bind {W A B : Type} (c : Collaborators W) (m : Prog A)
    (f : A -> Prog B) (w : W) :
  run c (bind m f) w
  = match outcome (run c m w) with
    | Returned a =>
        mkRun (outcome (run c (f a) (world (run c m w))))
              (trace (run c m w) ++ trace (run c (f a) (world (run c m w))))
              (world (run c (f a) (world (run c m w))))
    | Panicked reason =>
        mkRun (Panicked reason) (trace (run c m w)) (world (run c m w))
    end.
Proof.
  revert w. induction m as [a|reason|X call k IH]; intros w; cbn.
  - destruct (run c (f a) w); reflexivity.
  - reflexivity.
  - destruct (handle c call w) as [x w1]. cbn. rewrite IH.
    destruct (outcome (run c (k x) w1)); reflexivity.
Qed.

(** The flexible creation handler on a bound request: the run of the
    service, with the answer in place of what the service returned. *)
Lemma run_handler_CreatePokemonFlexible {W : Type} (c : Collaborators W)
    (req : FlexiblePokemonRequest.t) (w : W) :
  run c (handlers.CreatePokemonFlexible CreatePokemonFlexible (req, None)) w
  = mkRun
      match outcome (run c (CreatePokemonFlexible req) w) with
      | Returned result => Returned (creation_response result)
      | Panicked reason => Panicked reason
      end
      (trace (run c (CreatePokemonFlexible req) w))
      (world (run c (CreatePokemonFlexible req) w)).
Proof.
  unfold handlers.CreatePokemonFlexible, mbind, Prog_bind.
  rewrite run_bind.
  destruct (outcome (run c (CreatePokemonFlexible req) w)) as [[pokemon err]|];
    [|reflexivity].
  unfold creation_response.
  destruct err as [err|]; [|cbn; rewrite app_nil_r; reflexivity].
  destruct (String.eqb (Error err) _); cbn; rewrite app_nil_r; reflexivity.
Qed.

(** X14: a path parameter that is empty, holds anything but decimal
    digits, or stands for a number from [2^32] on is answered with status
    400 and ["invalid Pokemon ID"]; the service is not asked. *)
Theorem GetPokemon_handler_rejects_bad_id {M : Type -> Type}
    `{!MBind M, !MRet M}
    (service_GetPokemon : N -> M (option Pokemon.t * option error)%type)
    (idParam : string) :
  idParam = "" \/ allDigits idParam = false
    \/ (2 ^ 32 <= digitsValue idParam 0)%N ->
  handlers.GetPokemon service_GetPokemon idParam
  = mret (handlers.JSON 400 (handlers.H_error "invalid Pokemon ID")).
Proof.
  intros Hbad.
  assert (Herr : snd (strconv.ParseUint idParam 32) <> None).
  { unfold strconv.ParseUint.
    destruct (String.eqb_spec idParam "") as [|Hne]; [cbn; discriminate|].
    destruct Hbad as [Hempty | [Hdig | Hbig]]; [contradiction | |].
    - apply parseLoop_not_digits; assumption.
    - destruct (allDigits idParam) eqn:Hdig;
        [|apply parseLoop_not_digits; assumption].
      rewrite parseLoop_digits by (assumption || (vm_compute; discriminate)).
      change (2 ^ 32 - 1)%N with 4294967295%N.
      change (2 ^ 32)%N with 4294967296%N in Hbig.
      destruct (N.leb_spec (digitsValue idParam 0) 4294967295);
        [lia | cbn; discriminate]. }
  unfold handlers.GetPokemon.
  destruct (strconv.ParseUint idParam 32) as [id [err|]];
    [reflexivity | contradiction].
Qed.

Lemma GetPokemon_handler_rejects_bad_id_witness :
  handlers.GetPokemon (M := State adapters.World)
    (pokemonService.GetPokemon (repositories.GetByID stub.db)) "-1"
  = mret (handlers.JSON 400 (handlers.H_error "invalid Pokemon ID")).
Proof.
  apply (GetPokemon_handler_rejects_bad_id (M := State adapters.World)
           (pokemonService.GetPokemon (repositories.GetByID stub.db)) "-1").
  right; left. reflexivity.
Defined.

(** X15: [GET /pokemon/:id] for a path parameter of decimal digits that
    stands for a number below [2^32], through the handler, the service and
    the repository: the database is asked for that number; the answer is
    the row with status 200 when the query reports no error, status 404
    with ["pokemon not found"] when the row is missing (or the error reads
    exactly so), status 500 with the message of the database error
    otherwise. *)
Theorem GetPokemon_by_id {D : Type} (db : gorm.DB D) (idParam : string)
    (d d1 : D) (row : Pokemon.t) (dbErr : option error) :
  idParam <> "" ->
  allDigits idParam = true ->
  (digitsValue idParam 0 < 2 ^ 32)%N ->
  gorm.First db (digitsValue idParam 0) d = ((row, dbErr), d1) ->
  handlers.GetPokemon (M := State D)
    (pokemonService.GetPokemon (repositories.GetByID db)) idParam d
  = (match dbErr with
     | None => handlers.JSON 200 (handlers.one (Some row))
     | Some err =>
         if gorm.Is_ErrRecordNotFound db err
            || String.eqb (Error err) "pokemon not found"
         then handlers.JSON 404 (handlers.H_error "pokemon not found")
         else handlers.JSON 500 (handlers.H_error (Error err))
     end, d1).
Proof.
  intros Hne Hdig Hn Hrow.
  unfold handlers.GetPokemon, strconv.ParseUint.
  destruct (String.eqb_spec idParam ""); [contradiction|].
  rewrite parseLoop_digits by (assumption || (vm_compute; discriminate)).
  change (2 ^ 32 - 1)%N with 4294967295%N.
  change (2 ^ 32)%N with 4294967296%N in Hn.
  destruct (N.leb_spec (digitsValue idParam 0) 4294967295); [|lia].
  unfold mbind, State_bind, pokemonService.GetPokemon, repositories.GetByID.
  rewrite Hrow.
  destruct dbErr as [err|]; [|reflexivity].
  destruct (gorm.Is_ErrRecordNotFound db err); [reflexivity|].
  cbn [orb].
  destruct (String.eqb_spec (Error err) "pokemon not found") as [Hmsg|];
    [rewrite Hmsg|]; reflexivity.
Qed.

Lemma GetPokemon_by_id_witness :
  handlers.GetPokemon (M := State adapters.World)
    (pokemonService.GetPokemon (repositories.GetByID stub.db))
    "001" adapters.with_pikachu
  = (handlers.JSON 200 (handlers.one (Some adapters.pikachu_row)),
     adapters.with_pikachu).
Proof.
  apply (GetPokemon_by_id stub.db "001" adapters.with_pikachu
           adapters.with_pikachu adapters.pikachu_row None).
  - discriminate.
  - reflexivity.
  - vm_compute. reflexivity.
  - reflexivity.
Defined.

(** X16: on the routed endpoint a request without any usable name is
    answered with status 500 and ["pokemon name is required"], not with
    400; neither the repository nor the client is called. *)
Theorem CreatePokemonFlexible_handler_missing_name {W : Type}
    (c : Collaborators W) (req : FlexiblePokemonRequest.t) (w : W) :
  extractPokemonName req = "" ->
  run c (handlers.CreatePokemonFlexible CreatePokemonFlexible (req, None)) w
  = mkRun (Returned (handlers.JSON 500
                       (handlers.H_error "pokemon name is required")))
      [] w.
Proof.
  intros Hname. rewrite run_handler_CreatePokemonFlexible.
  rewrite (CreatePokemonFlexible_empty_name req Hname). reflexivity.
Qed.

Lemma CreatePokemonFlexible_handler_missing_name_witness :
  run (wired stub.db stub.client)
    (handlers.CreatePokemonFlexible CreatePokemonFlexible
       (FlexiblePokemonRequest.mk "   " "grass" "" None, None))
    (adapters.fresh, stub.net)
  = mkRun (Returned (handlers.JSON 500
                       (handlers.H_error "pokemon name is required")))
      [] (adapters.fresh, stub.net).
Proof.
  apply (CreatePokemonFlexible_handler_missing_name (wired stub.db stub.client)
           (FlexiblePokemonRequest.mk "   " "grass" "" None)
           (adapters.fresh, stub.net)).
  reflexivity.
Defined.

(** X17: what the routed creation endpoint answers to a bound request is
    status 201, 409 or 500.  Status 201 carries a record, and [Create] was
    called; status 409 carries the duplicate-name message and is given
    right after the lookup, before any fetch or write. *)
Theorem CreatePokemonFlexible_handler_statuses {W : Type}
    (c : Collaborators W) (req : FlexiblePokemonRequest.t) (w : W)
    (resp : handlers.Response) :
  outcome (run c (handlers.CreatePokemonFlexible CreatePokemonFlexible
                    (req, None)) w)
    = Returned resp ->
  (handlers.code resp = 201%Z \/ handlers.code resp = 409%Z
   \/ handlers.code resp = 500%Z)
  /\ (handlers.code resp = 201%Z ->
      (exists pokemon, handlers.obj resp = handlers.one (Some pokemon))
      /\ calls isCreate
           (trace (run c (handlers.CreatePokemonFlexible CreatePokemonFlexible
                            (req, None)) w)) <> [])
  /\ (handlers.code resp = 409%Z ->
      handlers.obj resp
        = handlers.H_error "pokemon with this name already exists"
      /\ trace (run c (handlers.CreatePokemonFlexible CreatePokemonFlexible
                         (req, None)) w)
         = [EvGetByName (extractPokemonName req)]).
Proof.
  rewrite run_handler_CreatePokemonFlexible. cbn [outcome trace].
  unfold CreatePokemonFlexible.
  destruct (String.eqb (extractPokemonName req) "").
  { cbn. intros [= <-]. cbn.
    split; [right; right; reflexivity|]. split; discriminate. }
  rewrite run_CreatePokemon; cbv zeta; cbn [CreatePokemonRequest.Name].
  destruct (repository_GetByName c _ w) as [[existingPokemon lookupErr] w1].
  destruct (is_nil lookupErr && negb (is_nil existingPokemon)).
  { cbn. intros [= <-]. cbn.
    split; [right; left; reflexivity|].
    split; [discriminate|]. intros _. split; reflexivity. }
  destruct (apiClient_GetPokemonData c _ w1) as [[externalData fetchErr] w2].
  destruct fetchErr as [ferr|].
  { cbn. intros [= <-]. cbn.
    split; [right; right; reflexivity|]. split; discriminate. }
  destruct externalData as [data|]; [|discriminate].
  destruct (repository_Create c _ w2) as [[saved saveErr] w3].
  destruct saveErr as [serr|]; cbn; intros [= <-]; cbn.
  - split; [right; right; reflexivity|]. split; discriminate.
  - split; [left; reflexivity|].
    split; [|discriminate].
    intros _. split; [eexists; reflexivity | discriminate].
Qed.

Lemma CreatePokemonFlexible_handler_statuses_witness :
  exists pokemon,
    handlers.obj
      (handlers.JSON 201
         (handlers.one
            (Some (Pokemon.mk 1%N "pikachu" "electric" "" 4%Z 60%Z 112%Z
                     1700000000%Z 1700000000%Z))))
    = handlers.one (Some pokemon).
Proof.
  refine (proj1 (proj1 (proj2
    (CreatePokemonFlexible_handler_statuses (wired stub.db stub.client)
       (FlexiblePokemonRequest.mk "" "electric" ""
          (Some {[ "pokemon" := any_string "Pikachu" ]}))
       (adapters.fresh, stub.net) _ _)) _)).
  - vm_compute. reflexivity.
  - reflexivity.
Defined.

(** X18: [GET /pokemon] through the handler, the service and the
    repository: the rows with status 200 when the query reports no error,
    an empty table included; status 500 with the message of the database
    error otherwise. *)
Theorem ListPokemon_through_the_layers {D : Type} (db : gorm.DB D) (d d1 : D)
    (rows : list Pokemon.t) (dbErr : option error) :
  gorm.Find db d = ((rows, dbErr), d1) ->
  handlers.ListPokemon (M := State D)
    (pokemonService.ListPokemon (repositories.List db)) d
  = (match dbErr with
     | None => handlers.JSON 200 (handlers.many rows)
     | Some err => handlers.JSON 500 (handlers.H_error (Error err))
     end, d1).
Proof.
  intros Hfind.
  unfold handlers.ListPokemon, mbind, State_bind, pokemonService.ListPokemon,
    repositories.List.
  rewrite Hfind. destruct dbErr; reflexivity.
Qed.

Lemma ListPokemon_through_the_layers_witness :
  handlers.ListPokemon (M := State adapters.World)
    (pokemonService.ListPokemon (repositories.List stub.db)) adapters.fresh
  = (handlers.JSON 200 (handlers.many []), adapters.fresh).
Proof.
  apply (ListPokemon_through_the_layers stub.db adapters.fresh adapters.fresh
           [] None).
  reflexivity.
Defined.

(** ** Configuration *)

(** X19: [getEnv] gives the value of the variable when it is set and not
    empty, and the default otherwise: a variable set to the empty string
    counts as not set, and with a non-empty default the result is never
    empty. *)
Theorem getEnv_default (environ : gmap string string)
    (key defaultValue : string) :
  (forall value, environ !! key = Some value -> value <> "" ->
     getEnv environ key defaultValue = value)
  /\ (environ !! key = None \/ environ !! key = Some "" ->
      getEnv environ key defaultValue = defaultValue)
  /\ (defaultValue <> "" -> getEnv environ key defaultValue <> "").
Proof.
  unfold getEnv, os_Getenv.
  destruct (environ !! key) as [v|]; cbn.
  - destruct (String.eqb_spec v "") as [->|Hv]; cbn.
    + split; [intros value [= <-] Hne; contradiction|].
      split; [reflexivity | tauto].
    + split; [intros value [= <-] _; reflexivity|].
      split; [|intros _; exact Hv].
      intros [Hnone | [= Hempty]]; [discriminate | contradiction].
  - split; [discriminate|]. split; [reflexivity | tauto].
Qed.

Lemma getEnv_default_witness :
  getEnv {[ "PORT" := ""; "DB_HOST" := "db" ]} "PORT" "8080" = "8080".
Proof.
  refine (proj1 (proj2
    (getEnv_default {[ "PORT" := ""; "DB_HOST" := "db" ]} "PORT" "8080")) _).
  right. vm_compute. reflexivity.
Defined.
